(** * manifold: request building and client-side validation

    A shallow embedding of the Go client library [github.com/e74000/manifold]:
    the validation primitives ([checkOneOf], [checkInRange]), the transport
    client ([Client.GET], [Client.POST]) and the endpoint methods of the
    User, Group, Market, Bet, Comment and Mana services, followed by the
    properties of the request-building layer.

    Conventions of the embedding:
    - Go [int] is a 64-bit two's-complement integer: a [Z] with the
      wrap-around of [+] and [-] written out ([wrap64]);
    - Go [float64] is an IEEE-754 binary64 value ([spec_float]), compared
      with the IEEE comparison (every comparison with NaN is false);
    - a nil-able pointer parameter [*T] is an [option T];
    - [map[string]string] and [map[string]interface{}] are [gmap]s;
    - [time.Time] is an instant, in nanoseconds since the Unix epoch;
    - what the Go standard library does (net/http, encoding/json, the
      clock, [%f] formatting, [url.PathEscape]) is a [Platform] of oracles;
    - the requests handed to the HTTP client are logged in the [World]. *)

From Stdlib Require Import ZArith List Bool Lia.
From Stdlib Require Import Floats.SpecFloat.
From stdpp Require Import gmap strings pretty.

Local Open Scope string_scope.
Local Open Scope Z_scope.

(** ** Go base types *)

Definition int := Z.

Definition MinInt : Z := - 2 ^ 63.
Definition MaxInt : Z := 2 ^ 63 - 1.

(** The value a 64-bit signed register holds after an operation whose
    mathematical result is [z]. *)
Definition wrap64 (z : Z) : int := (z + 2 ^ 63) mod 2 ^ 64 - 2 ^ 63.

Definition int_add (a b : int) : int := wrap64 (a + b).
Definition int_sub (a b : int) : int := wrap64 (a - b).

Definition float64 := spec_float.

Definition f64_zero : float64 := S754_zero false.
Definition f64_one : float64 := S754_finite false 4503599627370496 (-52).
Definition f64_half : float64 := S754_finite false 4503599627370496 (-53).
Definition f64_NaN : float64 := S754_nan.

(** [fmt.Sprintf("%d", n)]. *)
Definition sprintf_d (n : int) : string := pretty n.

(** [time.Time], [Time.After] and [Time.UnixMilli]. [UnixMilli] is computed
    in [int64]: [unixSec*1e3 + nsec/1e6], which wraps around for instants
    whose milliseconds do not fit 64 bits. *)
Definition Time := Z.

Definition After (t u : Time) : bool := u <? t.

Definition UnixMilli (t : Time) : Z := wrap64 (t / 1000000).

(** [cmp.Ordered] and [comparable]: the operators [<] and [==] of the
    instantiating type. [a > b] is [b < a]. *)
Class Ordered (T : Type) := go_lt : T → T → bool.
Class Comparable (T : Type) := go_eq : T → T → bool.

#[global] Instance int_Ordered : Ordered int := Z.ltb.
#[global] Instance float64_Ordered : Ordered float64 := SFltb.
#[global] Instance string_Comparable : Comparable string := String.eqb.

(** ** errors.go *)

(** Error values. [Errorf format wrapped] is [fmt.Errorf(format, ...)]: the
    format string is kept, and of the operands only those of a [%w] verb;
    operands of [%v], [%f] and [%d] only change the text of the message.
    [External] is an error made by the standard library (net/http, io,
    encoding/json), known by its text. *)
#[warnings="-register-all"]
Inductive error : Type :=
| ErrorGETFailed
| ErrorPOSTFailed
| ErrorFailedToParseResponse
| External (text : string)
| Errorf (format : string) (wrapped : list error).

(** An error that the library made by itself from its arguments: it wraps
    neither a sentinel of errors.go nor an error of the standard library. *)
Fixpoint validationError (e : error) : bool :=
  match e with
  | Errorf _ wrapped => forallb validationError wrapped
  | _ => false
  end.

(** A Go result pair [(T, error)] of which the caller reads one side. *)
Inductive Result (A : Type) : Type :=
| Ok (a : A)
| Err (e : error).
Arguments Ok {A} a.
Arguments Err {A} e.

(** ** Validation primitives (util) *)

(** [nil] is [None]. *)
Fixpoint checkOneOf {T} `{Comparable T} (value : T) (allowed : list T) : option error :=
  match allowed with
  | [] => Some (Errorf "invalid value: %v, allowed values are: %v" [])
  | a :: rest => if go_eq value a then None else checkOneOf value rest
  end.

Definition checkInRange {T} `{Ordered T} (value min max : T) : option error :=
  if go_lt value min || go_lt max value
  then Some (Errorf "invalid value: %v, must be within range [%v, %v]" [])
  else None.

(** ** The platform: HTTP, JSON, formatting *)

Definition bytes := string.

Inductive Method := MGET | MPOST.

(** An [http.Request] as the client fills it: [query] is what
    [req.URL.Query()] holds after the [q.Add] loop, [payload] the bytes of
    the body reader ([None] for the [nil] reader of a GET). *)
Record Request := {
  method : Method;
  rawurl : string;
  query : gmap string string;
  header : list (string * string);
  payload : option bytes
}.

(** An [http.Response]: its status code and what reading its body to the
    end gives, the bytes read and the (library) error that stopped the
    read, if any. *)
Record Response := {
  StatusCode : Z;
  bodyData : bytes;
  bodyErr : option string
}.

Record Resolution := { Answer : int; Pct : int }.

(** A Go slice [[]T]: the [nil] slice is [None], a slice with a backing
    array (possibly of length 0) is [Some]. *)
Definition slice (A : Type) : Type := option (list A).

Definition elems {A} (s : slice A) : list A :=
  match s with
  | Some l => l
  | None => []
  end.

Definition len {A} (s : slice A) : int := Z.of_nat (length (elems s)).

Definition isNil {A} (p : option A) : bool :=
  match p with
  | Some _ => false
  | None => true
  end.

(** The values stored in a [map[string]interface{}] body. *)
Inductive GoValue :=
| VString (s : string)
| VInt (n : int)
| VInt64 (n : Z)
| VFloat64 (f : float64)
| VBool (b : bool)
| VStrings (l : slice string)
| VResolutions (l : slice Resolution).

(** The [body interface{}] argument of [Client.POST]. *)
Inductive Body :=
| BodyNil
| BodyStrings (m : gmap string string)
| BodyValues (m : gmap string GoValue).

(** The record types a response is decoded into. The records are passive
    deserialisation targets: [Decoded t] stands for the value of type [t]
    that [json.Unmarshal] filled from [raw]. *)
Inductive Target :=
| TUsers | TUser | TDisplayUser | TGroups | TGroup
| TLiteMarkets | TLiteMarket | TFullMarket | TContractMetrics
| TBets | TBet | TComments | TTxns | TTxn.

Record Decoded (t : Target) := { raw : bytes }.
Arguments raw {t} d.

Record Platform := {
  (** [http.NewRequest]: the error for a target URL that does not parse. *)
  newRequestError : string → option string;
  (** [HTTPClient.Do], which may depend on the requests sent before. *)
  roundTrip : list Request → Request → Response + string;
  (** [json.Marshal]. *)
  jsonMarshal : Body → bytes + string;
  (** [json.Unmarshal] into a fresh value of the target type. *)
  jsonUnmarshal : Target → bytes → option string;
  (** [fmt.Sprintf("%f", x)]. *)
  sprintf_f : float64 → string;
  (** [url.PathEscape]. *)
  PathEscape : string → string
}.

(** ** The world and the monad of endpoint methods *)

(** The wall clock read by [time.Now()] and the requests handed to the
    HTTP client so far, the latest first. *)
Record World := { clock : Time; wire : list Request }.

Definition sent (req : Request) (w : World) : World :=
  {| clock := clock w; wire := req :: wire w |}.

(** A Go function with side effects and a result pair [(T, error)]. *)
Definition M (A : Type) : Type := World → Result A * World.

Definition ret {A} (a : A) : M A := fun w => (Ok a, w).

Definition throw {A} (e : error) : M A := fun w => (Err e, w).

Definition bind {A B} (m : M A) (k : A → M B) : M B :=
  fun w => match m w with
           | (Ok a, w') => k a w'
           | (Err e, w') => (Err e, w')
           end.

Notation "'let*' x := m 'in' k" := (bind m (fun x => k))
  (at level 10, x name, m at level 100, k at level 200).

(** [if err := check; err != nil { return nil, wrap(err) }]. *)
Definition guard (check : option error) (wrap : error → error) : M unit :=
  match check with
  | Some err => throw (wrap err)
  | None => ret tt
  end.

(** [if cond { return nil, e }]. *)
Definition reject_if (cond : bool) (e : error) : M unit :=
  if cond then throw e else ret tt.

Definition timeNow : M Time := fun w => (Ok (clock w), w).

(** ** client.go *)

Record Client := { BaseURL : string; APIKey : string }.

Definition NewClient (apiKey : string) : Client :=
  {| BaseURL := "https://api.manifold.markets/v0"; APIKey := apiKey |}.

Definition authorization (c : Client) : list (string * string) :=
  if String.eqb (APIKey c) "" then [] else [("Authorization", "Key " +:+ APIKey c)].

Section Transport.
Variable P : Platform.
Variable c : Client.

(** [resp, err := c.HTTPClient.Do(req)] and [ioutil.ReadAll(resp.Body)]:
    the Go pair [([]byte, error)], a [nil] slice being [""]. *)
Definition execute (req : Request) (w : World) : (bytes * option error) * World :=
  match roundTrip P (wire w) req with
  | inr err => (("", Some (External err)), sent req w)
  | inl resp => ((bodyData resp, External <$> bodyErr resp), sent req w)
  end.

(** The request [Client.GET] builds: [http.NewRequest("GET", ...)], the
    query parameters and the Authorization header. *)
Definition getRequest (endpoint : string) (params : gmap string string) : Request :=
  {| method := MGET;
     rawurl := BaseURL c +:+ endpoint;
     query := params;
     header := authorization c;
     payload := None |}.

Definition GET (endpoint : string) (params : gmap string string) (w : World)
  : (bytes * option error) * World :=
  match newRequestError P (BaseURL c +:+ endpoint) with
  | Some err => (("", Some (External err)), w)
  | None => execute (getRequest endpoint params) w
  end.

(** [jsonBody]: [json.Marshal(body)], or no bytes for a [nil] body. *)
Definition marshal (body : Body) : bytes + string :=
  match body with
  | BodyNil => inl ""
  | _ => jsonMarshal P body
  end.

(** The request [Client.POST] builds. *)
Definition postRequest (endpoint : string) (jsonBody : bytes) : Request :=
  {| method := MPOST;
     rawurl := BaseURL c +:+ endpoint;
     query := ∅;
     header := ("Content-Type", "application/json") :: authorization c;
     payload := Some jsonBody |}.

Definition POST (endpoint : string) (body : Body) (w : World)
  : (bytes * option error) * World :=
  match marshal body with
  | inr err => (("", Some (External err)), w)
  | inl jsonBody =>
      match newRequestError P (BaseURL c +:+ endpoint) with
      | Some err => (("", Some (External err)), w)
      | None => execute (postRequest endpoint jsonBody) w
      end
  end.

(** [result, err := s.client.GET(...); if err != nil { return nil, wrap(err) }]. *)
Definition try (call : World → (bytes * option error) * World)
    (wrap : error → error) : M bytes :=
  fun w => match call w with
           | ((_, Some err), w') => (Err (wrap err), w')
           | ((result, None), w') => (Ok result, w')
           end.

(** [v := new(T); err = json.Unmarshal(result, v); if err != nil ...]. *)
Definition decode (t : Target) (result : bytes) (wrap : error → error) : M (Decoded t) :=
  match jsonUnmarshal P t result with
  | Some err => throw (wrap (External err))
  | None => ret {| raw := result |}
  end.

End Transport.

(** [if p != nil { params[key] = *p }]. *)
Definition setIfPresent (key : string) (p : option string)
    (params : gmap string string) : gmap string string :=
  match p with
  | Some v => <[key := v]> params
  | None => params
  end.

(** ** service_user.go *)

Module UserService.
Section Service.
Variable P : Platform.
Variable c : Client.

Definition Users (limit : option int) (before : option string) : M (Decoded TUsers) :=
  let params : gmap string string := ∅ in
  let* params :=
    match limit with
    | Some limit =>
        let* _ := guard (checkInRange limit 0 1000)
                    (fun err => Errorf "User: Users(limit): %w" [err]) in
        ret (<["limit" := sprintf_d limit]> params)
    | None => ret params
    end in
  let params := setIfPresent "before" before params in
  let* result := try (GET P c "/users" params)
                   (fun err => Errorf "User: Users: %w: %w" [ErrorGETFailed; err]) in
  decode P TUsers result
    (fun err => Errorf "User: Users: %w: %w" [ErrorFailedToParseResponse; err]).

Definition User (username : string) : M (Decoded TUser) :=
  let* result := try (GET P c ("/user/" +:+ PathEscape P username) ∅)
                   (fun err => Errorf "User: User: %w: %w" [ErrorGETFailed; err]) in
  decode P TUser result
    (fun err => Errorf "User: User: %w: %w" [ErrorFailedToParseResponse; err]).

Definition UserLite (username : string) : M (Decoded TDisplayUser) :=
  let* result := try (GET P c ("/user/" +:+ PathEscape P username +:+ "/lite") ∅)
                   (fun err => Errorf "User: UserLite: %w: %w" [ErrorGETFailed; err]) in
  decode P TDisplayUser result
    (fun err => Errorf "User: UserLite: %w: %w" [ErrorFailedToParseResponse; err]).

Definition ID (id : string) : M (Decoded TUser) :=
  let* result := try (GET P c ("/user/by-id/" +:+ PathEscape P id) ∅)
                   (fun err => Errorf "User: ID: %w: %w" [ErrorGETFailed; err]) in
  decode P TUser result
    (fun err => Errorf "User: ID: %w: %w" [ErrorFailedToParseResponse; err]).

Definition IDLite (id : string) : M (Decoded TDisplayUser) :=
  let* result := try (GET P c ("/user/by-id/" +:+ PathEscape P id +:+ "/lite") ∅)
                   (fun err => Errorf "User: IDLite: %w: %w" [ErrorGETFailed; err]) in
  decode P TDisplayUser result
    (fun err => Errorf "User: IDLite: %w: %w" [ErrorFailedToParseResponse; err]).

Definition Me : M (Decoded TUser) :=
  let* result := try (GET P c "/me" ∅)
                   (fun err => Errorf "User: Me: %w: %w" [ErrorGETFailed; err]) in
  decode P TUser result
    (fun err => Errorf "User: Me: %w: %w" [ErrorFailedToParseResponse; err]).

End Service.
End UserService.

(** ** service_group.go *)

Module GroupService.
Section Service.
Variable P : Platform.
Variable c : Client.

Definition Groups (beforeTime : option Time) (availableToUserID : option string)
  : M (Decoded TGroups) :=
  let params : gmap string string := ∅ in
  let params :=
    match beforeTime with
    | Some t => <["beforeTime" := sprintf_d (UnixMilli t)]> params
    | None => params
    end in
  let params := setIfPresent "availableToUserID" availableToUserID params in
  let* result := try (GET P c "/groups" params)
                   (fun err => Errorf "Group: Groups: %w: %w" [ErrorGETFailed; err]) in
  decode P TGroups result
    (fun err => Errorf "Group: Groups: %w: %w" [ErrorFailedToParseResponse; err]).

Definition Group (slug : string) : M (Decoded TGroup) :=
  let* result := try (GET P c ("/group/" +:+ PathEscape P slug) ∅)
                   (fun err => Errorf "Group: Group: %w: %w" [ErrorGETFailed; err]) in
  decode P TGroup result
    (fun err => Errorf "Group: Group: %w: %w" [ErrorFailedToParseResponse; err]).

Definition ID (id : string) : M (Decoded TGroup) :=
  let* result := try (GET P c ("/group/by-id/" +:+ PathEscape P id) ∅)
                   (fun err => Errorf "Group: ID: %w: %w" [ErrorGETFailed; err]) in
  decode P TGroup result
    (fun err => Errorf "Group: ID: %w: %w" [ErrorFailedToParseResponse; err]).

End Service.
End GroupService.

(** ** service_mana.go *)

Module ManaService.
Section Service.
Variable P : Platform.
Variable c : Client.

Definition Managrams (toID fromID : option string) (limit : option int)
    (before after : option Time) : M (Decoded TTxns) :=
  let params : gmap string string := ∅ in
  let params := setIfPresent "toId" toID params in
  let params := setIfPresent "fromId" fromID params in
  let* params :=
    match limit with
    | Some limit =>
        let* _ := guard (checkInRange limit 0 1000)
                    (fun err => Errorf "Misc: Managrams(limit): %w" [err]) in
        ret (<["limit" := sprintf_d limit]> params)
    | None => ret params
    end in
  let params :=
    match before with
    | Some t => <["before" := sprintf_d (UnixMilli t)]> params
    | None => params
    end in
  let params :=
    match after with
    | Some t => <["after" := sprintf_d (UnixMilli t)]> params
    | None => params
    end in
  let* result := try (GET P c "/managrams" params)
                   (fun err => Errorf "Mana: Managrams: %w: %w" [ErrorGETFailed; err]) in
  decode P TTxns result
    (fun err => Errorf "Mana: Managrams: %w: %w" [ErrorFailedToParseResponse; err]).

Definition Managram (toIDs : slice string) (amount : float64) (message : option string)
  : M unit :=
  let body : gmap string GoValue :=
    <["amount" := VFloat64 amount]> (<["toIds" := VStrings toIDs]> ∅) in
  let body :=
    match message with
    | Some message => <["message" := VString message]> body
    | None => body
    end in
  let* _ := try (POST P c "/managram" (BodyValues body))
              (fun err => Errorf "Mana: Managram: %w: %w" [ErrorPOSTFailed; err]) in
  ret tt.

End Service.
End ManaService.

(** ** service_comment.go *)

Module CommentService.
Section Service.
Variable P : Platform.
Variable c : Client.

Definition Comments (contractID contractSlug : option string)
    (limit offset : option int) (userID : option string) : M (Decoded TComments) :=
  let params : gmap string string := ∅ in
  let params := setIfPresent "contractId" contractID params in
  let params := setIfPresent "contractSlug" contractSlug params in
  let* params :=
    match limit with
    | Some limit =>
        let* _ := guard (checkInRange limit 0 1000)
                    (fun err => Errorf "Comment: Comments(limit): %w" [err]) in
        ret (<["limit" := sprintf_d limit]> params)
    | None => ret params
    end in
  let* params :=
    match offset with
    | Some offset =>
        let* _ := reject_if (offset <? 0)
                    (Errorf "Comment: Comments(offset): invalid value: %v, must be greater than 0" []) in
        ret (<["offset" := sprintf_d offset]> params)
    | None => ret params
    end in
  let params := setIfPresent "userId" userID params in
  let* result := try (GET P c "/comments" params)
                   (fun err => Errorf "Comment: Comments: %w: %w" [ErrorGETFailed; err]) in
  decode P TComments result
    (fun err => Errorf "Comment: Comments: %w: %w" [ErrorFailedToParseResponse; err]).

Definition Comment (id content : string) : M unit :=
  let body : gmap string string := <["content" := content]> (<["contractId" := id]> ∅) in
  let* _ := try (POST P c "/comment" (BodyStrings body))
              (fun err => Errorf "Comment: Comment: %w: %w" [ErrorPOSTFailed; err]) in
  ret tt.

Definition CommentHTML (id content : string) : M unit :=
  let body : gmap string string := <["html" := content]> (<["contractId" := id]> ∅) in
  let* _ := try (POST P c "/comment" (BodyStrings body))
              (fun err => Errorf "Comment: CommentHTML: %w: %w" [ErrorPOSTFailed; err]) in
  ret tt.

Definition CommentMarkdown (id content : string) : M unit :=
  let body : gmap string string := <["markdown" := content]> (<["contractId" := id]> ∅) in
  let* _ := try (POST P c "/comment" (BodyStrings body))
              (fun err => Errorf "Comment: CommentMarkdown: %w: %w" [ErrorPOSTFailed; err]) in
  ret tt.

End Service.
End CommentService.

(** ** service_bet.go *)

Module BetService.
Section Service.
Variable P : Platform.
Variable c : Client.

Definition Bets (userID username contractID contractSlug : option string)
    (limit : option int) (before after : option string)
    (beforeTime afterTime : option Time) (kinds order : option string)
  : M (Decoded TBets) :=
  let params : gmap string string := ∅ in
  let params := setIfPresent "userId" userID params in
  let params := setIfPresent "username" username params in
  let params := setIfPresent "contractId" contractID params in
  let params := setIfPresent "contractSlug" contractSlug params in
  let* params :=
    match limit with
    | Some limit =>
        let* _ := guard (checkInRange limit 0 1000)
                    (fun err => Errorf "Bet: Bets(limit): %w" [err]) in
        ret (<["limit" := sprintf_d limit]> params)
    | None => ret params
    end in
  let params := setIfPresent "before" before params in
  let params := setIfPresent "after" after params in
  let params :=
    match beforeTime with
    | Some t => <["beforeTime" := sprintf_d (UnixMilli t)]> params
    | None => params
    end in
  let params :=
    match afterTime with
    | Some t => <["afterTime" := sprintf_d (UnixMilli t)]> params
    | None => params
    end in
  let* params :=
    match kinds with
    | Some kinds =>
        let* _ := guard (checkOneOf kinds ["open-limit"])
                    (fun err => Errorf "Bet: Bets(kinds): %w" [err]) in
        ret (<["kinds" := kinds]> params)
    | None => ret params
    end in
  let* params :=
    match order with
    | Some order =>
        let* _ := guard (checkOneOf order ["asc"; "desc"])
                    (fun err => Errorf "Bet: Bets(order): %w" [err]) in
        ret (<["order" := order]> params)
    | None => ret params
    end in
  let* result := try (GET P c "/bets" params)
                   (fun err => Errorf "Bet: Bets: %w: %w" [ErrorGETFailed; err]) in
  decode P TBets result
    (fun err => Errorf "Bet: Bets: %w: %w" [ErrorFailedToParseResponse; err]).

Definition Create (amount : float64) (contractID : string) (outcome : option string)
    (limitProb : option float64) (expiresAt : option Time) (dryRun : option bool)
  : M (Decoded TBet) :=
  let body : gmap string string :=
    <["contractId" := contractID]> (<["amount" := sprintf_f P amount]> ∅) in
  let* body :=
    match outcome with
    | Some outcome =>
        let* _ := guard (checkOneOf outcome ["YES"; "NO"])
                    (fun err => Errorf "Bet: Create(outcome): %w" [err]) in
        ret (<["outcome" := outcome]> body)
    | None => ret body
    end in
  let* body :=
    match limitProb with
    | Some limitProb =>
        let* _ := guard (checkInRange limitProb f64_zero f64_one)
                    (fun err => Errorf "Bet: Create(limitProb): %w" [err]) in
        ret (<["limitProb" := sprintf_f P limitProb]> body)
    | None => ret body
    end in
  let* body :=
    match expiresAt with
    | Some expiresAt =>
        let* _ := reject_if (isNil limitProb)
                    (Errorf "Bet: Create(expiresAt): only limit orders can have an expiresAt" []) in
        let* now := timeNow in
        let* _ := reject_if (After now expiresAt)
                    (Errorf "Bet: Create(expiresAt): limit order cannot expire in the past" []) in
        ret (<["expiresAt" := sprintf_d (UnixMilli expiresAt)]> body)
    | None => ret body
    end in
  let body :=
    match dryRun with
    | Some true => <["dryRun" := "true"]> body
    | Some false => <["dryRun" := "false"]> body
    | None => body
    end in
  let* result := try (POST P c "/bet" (BodyStrings body))
                   (fun err => Errorf "Bet: Create: %w: %w" [ErrorPOSTFailed; err]) in
  decode P TBet result
    (fun err => Errorf "Bet: Create: %w: %w" [ErrorFailedToParseResponse; err]).

Definition Cancel (id : string) : M unit :=
  let* _ := try (POST P c ("/bet/cancel/" +:+ PathEscape P id) BodyNil)
              (fun err => Errorf "Bet: Cancel: %w: %w" [ErrorPOSTFailed; err]) in
  ret tt.

End Service.
End BetService.

(** ** service_market.go *)

Module MarketService.

Definition allowedMarketMarketsSort : list string :=
  ["created-time"; "updated-time"; "last-bet-time"; "last-comment-time"].

Definition allowedMarketSearchSort : list string :=
  ["newest"; "score"; "daily-score"; "freshness-score"; "24-hour-vol"; "most-popular";
   "liquidity"; "subsidy"; "last-updated"; "close-date"; "resolve-date"; "random";
   "bounty-amount"; "prob-descending"; "prob-ascending"].

Definition allowedMarketSearchFilter : list string :=
  ["all"; "open"; "closed"; "resolved"; "closing-this-month"; "closing-next-month"].

Definition allowedMarketSearchContractType : list string :=
  ["ALL"; "BINARY"; "MULTIPLE_CHOICE"; "FREE-RESPONSE"; "PSEUDO-NUMERIC";
   "BOUNTIED_QUESTION"; "STONK"; "POLL"; "NUMBER"].

(** [totalPct := 0; for _, r := range resolutions { totalPct += r.Pct }]. *)
Definition totalPct (resolutions : list Resolution) : int :=
  fold_left (fun total resolution => int_add total (Pct resolution)) resolutions 0.

Section Service.
Variable P : Platform.
Variable c : Client.

Definition Markets (limit : option int) (sort order before userID groupID : option string)
  : M (Decoded TLiteMarkets) :=
  let params : gmap string string := ∅ in
  let* params :=
    match limit with
    | Some limit =>
        let* _ := guard (checkInRange limit 0 1000)
                    (fun err => Errorf "Market: Markets(limit): %w" [err]) in
        ret (<["limit" := sprintf_d limit]> params)
    | None => ret params
    end in
  let* params :=
    match sort with
    | Some sort =>
        let* _ := guard (checkOneOf sort allowedMarketMarketsSort)
                    (fun err => Errorf "Market: Markets(sort): %w" [err]) in
        ret (<["sort" := sort]> params)
    | None => ret params
    end in
  let* params :=
    match order with
    | Some order =>
        let* _ := guard (checkOneOf order ["asc"; "desc"])
                    (fun err => Errorf "Market: Markets(order): %w" [err]) in
        ret (<["order" := order]> params)
    | None => ret params
    end in
  let params := setIfPresent "before" before params in
  let params := setIfPresent "userID" userID params in
  let params := setIfPresent "groupID" groupID params in
  let* result := try (GET P c "/markets" params)
                   (fun err => Errorf "Market: Markets: %w: %w" [ErrorGETFailed; err]) in
  decode P TLiteMarkets result
    (fun err => Errorf "Market: Markets: %w: %w" [ErrorFailedToParseResponse; err]).

Definition Market (id : string) : M (Decoded TFullMarket) :=
  let* result := try (GET P c ("/market/" +:+ PathEscape P id) ∅)
                   (fun err => Errorf "Market: Market: %w: %w" [ErrorGETFailed; err]) in
  decode P TFullMarket result
    (fun err => Errorf "Market: Market: %w: %w" [ErrorFailedToParseResponse; err]).

Definition Positions (id : string) : M (Decoded TContractMetrics) :=
  let* result := try (GET P c ("/market/" +:+ PathEscape P id +:+ "/positions") ∅)
                   (fun err => Errorf "Market: Positions: %w: %w" [ErrorGETFailed; err]) in
  decode P TContractMetrics result
    (fun err => Errorf "Market: Positions: %w, %w" [ErrorFailedToParseResponse; err]).

Definition Slug (slug : string) : M (Decoded TFullMarket) :=
  let* result := try (GET P c ("/slug/" +:+ PathEscape P slug) ∅)
                   (fun err => Errorf "Market: Slug: %w: %w" [ErrorGETFailed; err]) in
  decode P TFullMarket result
    (fun err => Errorf "Market: Slug: %w: %w" [ErrorFailedToParseResponse; err]).

Definition Search (term : string) (sort filter contractType topicSlug creatorID : option string)
    (limit offset : option int) : M (Decoded TLiteMarkets) :=
  let params : gmap string string := ∅ in
  let params := <[term := term]> params in
  let* params :=
    match sort with
    | Some sort =>
        let* _ := guard (checkOneOf sort allowedMarketSearchSort)
                    (fun err => Errorf "Market: Search(sort): %w" [err]) in
        ret (<["sort" := sort]> params)
    | None => ret params
    end in
  let* params :=
    match filter with
    | Some filter =>
        let* _ := guard (checkOneOf filter allowedMarketSearchFilter)
                    (fun err => Errorf "Market: Search(filter): %w" [err]) in
        ret (<["filter" := filter]> params)
    | None => ret params
    end in
  let* params :=
    match contractType with
    | Some contractType =>
        let* _ := guard (checkOneOf contractType allowedMarketSearchContractType)
                    (fun err => Errorf "Market: Search(contractType): %w" [err]) in
        ret (<["contractType" := contractType]> params)
    | None => ret params
    end in
  let params := setIfPresent "topicSlug" topicSlug params in
  let params := setIfPresent "creatorId" creatorID params in
  let* params :=
    match limit with
    | Some limit =>
        let* _ := guard (checkInRange limit 0 1000)
                    (fun err => Errorf "Market: Search(limit): %w" [err]) in
        ret (<["limit" := sprintf_d limit]> params)
    | None => ret params
    end in
  let* params :=
    match offset with
    | Some offset =>
        let* _ := reject_if (offset <? 0)
                    (Errorf "Market: Search(offset): invalid value: %v, must be greater than 0" []) in
        ret (<["offset" := sprintf_d offset]> params)
    | None => ret params
    end in
  let* result := try (GET P c "/search-markets" params)
                   (fun err => Errorf "Market: Search: %w: %w" [ErrorGETFailed; err]) in
  decode P TLiteMarkets result
    (fun err => Errorf "Market: Search: %w: %w" [ErrorFailedToParseResponse; err]).

Definition createMarket (params : gmap string GoValue) : M (Decoded TLiteMarket) :=
  let* result := try (POST P c "/market" (BodyValues params))
                   (fun err => Errorf "Market: createMarket: %w" [err]) in
  decode P TLiteMarket result (fun err => Errorf "Market: createMarket: %w" [err]).

(** The part shared by the four [Create...] methods after [description]:
    [closeTime] and [visibility], with the method's name in the messages. *)
Definition closeTimeAndVisibility (name : string) (closeTime : option Time)
    (visibility : option string) (params : gmap string GoValue)
  : M (gmap string GoValue) :=
  let* params :=
    match closeTime with
    | Some closeTime =>
        let* now := timeNow in
        let* _ := reject_if (After now closeTime)
                    (Errorf ("Market: " +:+ name +:+ ": closeTime cannot be in the past") []) in
        ret (<["closeTime" := VInt64 (UnixMilli closeTime)]> params)
    | None => ret params
    end in
  match visibility with
  | Some visibility =>
      let* _ := guard (checkOneOf visibility ["public"; "unlisted"])
                  (fun err => Errorf ("Market: " +:+ name +:+ ": %w") [err]) in
      ret (<["visibility" := VString visibility]> params)
  | None => ret params
  end.

Definition setDescription (description : option string) (params : gmap string GoValue)
  : gmap string GoValue :=
  match description with
  | Some description => <["description" := VString description]> params
  | None => params
  end.

Definition setExtraLiquidity (extraLiquidity : option int) (params : gmap string GoValue)
  : gmap string GoValue :=
  match extraLiquidity with
  | Some extraLiquidity => <["extraLiquidity" := VInt extraLiquidity]> params
  | None => params
  end.

Definition CreateBinary (question : string) (initialProb : int) (description : option string)
    (closeTime : option Time) (visibility : option string) (extraLiquidity : option int)
  : M (Decoded TLiteMarket) :=
  let* _ := guard (checkInRange initialProb 1 99)
              (fun err => Errorf "Market: CreateBinary: %w" [err]) in
  let params : gmap string GoValue :=
    <["initialProb" := VInt initialProb]>
      (<["question" := VString question]> (<["outcomeType" := VString "BINARY"]> ∅)) in
  let params := setDescription description params in
  let* params := closeTimeAndVisibility "CreateBinary" closeTime visibility params in
  let params := setExtraLiquidity extraLiquidity params in
  createMarket params.

Definition CreatePseudoNumeric (question : string) (min max initialValue : int)
    (isLogScale : bool) (description : option string) (closeTime : option Time)
    (visibility : option string) (extraLiquidity : option int) : M (Decoded TLiteMarket) :=
  let* _ := guard (checkInRange initialValue (int_add min 1) (int_sub max 1))
              (fun err => Errorf "Market: CreatePseudoNumeric: %w" [err]) in
  let params : gmap string GoValue :=
    <["isLogScale" := VBool isLogScale]>
      (<["initialValue" := VInt initialValue]>
         (<["max" := VInt max]>
            (<["min" := VInt min]>
               (<["question" := VString question]>
                  (<["outcomeType" := VString "PSEUDO_NUMERIC"]> ∅))))) in
  let params := setDescription description params in
  let* params := closeTimeAndVisibility "CreatePseudoNumeric" closeTime visibility params in
  let params := setExtraLiquidity extraLiquidity params in
  createMarket params.

Definition CreatePoll (question : string) (answers : slice string)
    (description : option string) (closeTime : option Time) (visibility : option string)
  : M (Decoded TLiteMarket) :=
  let* _ := reject_if (len answers <? 2)
              (Errorf "Market: CreatePoll: at least two answers are required" []) in
  let params : gmap string GoValue :=
    <["answers" := VStrings answers]>
      (<["question" := VString question]> (<["outcomeType" := VString "POLL"]> ∅)) in
  let params := setDescription description params in
  let* params := closeTimeAndVisibility "CreatePoll" closeTime visibility params in
  createMarket params.

Definition CreateBountiedQuestion (question : string) (totalBounty : int)
    (description : option string) (closeTime : option Time) (visibility : option string)
  : M (Decoded TLiteMarket) :=
  let* _ := reject_if (totalBounty <=? 0)
              (Errorf "Market: CreateBountiedQuestion: totalBounty must be greater than zero" []) in
  let params : gmap string GoValue :=
    <["totalBounty" := VInt totalBounty]>
      (<["question" := VString question]>
         (<["outcomeType" := VString "BOUNTIED_QUESTION"]> ∅)) in
  let params := setDescription description params in
  let* params := closeTimeAndVisibility "CreateBountiedQuestion" closeTime visibility params in
  createMarket params.

Definition Answer (id text : string) : M unit :=
  let body : gmap string string := <["text" := text]> ∅ in
  let* _ := try (POST P c ("/market/" +:+ PathEscape P id +:+ "/answer") (BodyStrings body))
              (fun err => Errorf "Market: Answer: %w: %w" [ErrorPOSTFailed; err]) in
  ret tt.

Definition AddLiquidity (id : string) (amount : float64) : M (Decoded TTxn) :=
  let* _ := reject_if (go_lt amount f64_zero)
              (Errorf "Market: AddLiquidity(amount): invalid value: %f must be >0" []) in
  let body : gmap string string := <["amount" := sprintf_f P amount]> ∅ in
  let* response :=
    try (POST P c ("/market/" +:+ PathEscape P id +:+ "/add-liquidity") (BodyStrings body))
      (fun err => Errorf "Market: AddLiquidity: %w: %w" [ErrorPOSTFailed; err]) in
  decode P TTxn response
    (fun err => Errorf "Market: AddLiquidity: %w: %w" [ErrorFailedToParseResponse; err]).

Definition AddBounty (id : string) (amount : float64) : M (Decoded TTxn) :=
  let* _ := reject_if (go_lt amount f64_zero)
              (Errorf "Market: AddBounty(amount): invalid value: %f must be >0" []) in
  let body : gmap string string := <["amount" := sprintf_f P amount]> ∅ in
  let* response :=
    try (POST P c ("/market/" +:+ PathEscape P id +:+ "/add-bounty") (BodyStrings body))
      (fun err => Errorf "Market: AddBounty: %w: %w" [ErrorPOSTFailed; err]) in
  decode P TTxn response
    (fun err => Errorf "Market: AddBounty: %w: %w" [ErrorFailedToParseResponse; err]).

Definition AwardBounty (id : string) (amount : float64) (commentID : string)
  : M (Decoded TTxn) :=
  let* _ := reject_if (go_lt amount f64_zero)
              (Errorf "Market: AwardBounty(amount): invalid value: %f must be >0" []) in
  let body : gmap string string :=
    <["commentId" := commentID]> (<["amount" := sprintf_f P amount]> ∅) in
  let* response :=
    try (POST P c ("/market/" +:+ PathEscape P id +:+ "/award-bounty") (BodyStrings body))
      (fun err => Errorf "Market: AwardBounty: %w: %w" [ErrorPOSTFailed; err]) in
  decode P TTxn response
    (fun err => Errorf "Market: AwardBounty: %w: %w" [ErrorFailedToParseResponse; err]).

Definition Close (id : string) (closeTime : option Time) : M unit :=
  let body : gmap string string := ∅ in
  let* body :=
    match closeTime with
    | Some closeTime =>
        let* now := timeNow in
        let* _ := reject_if (After now closeTime)
                    (Errorf "Market: Close(closeTime): cannot close a market in the past" []) in
        ret (<["closeTime" := sprintf_d (UnixMilli closeTime)]> body)
    | None => ret body
    end in
  let* _ := try (POST P c ("/market/" +:+ PathEscape P id +:+ "/close") (BodyStrings body))
              (fun err => Errorf "Market: Close: %w: %w" [ErrorPOSTFailed; err]) in
  ret tt.

Definition Group (id groupID : string) (remove : option bool) : M unit :=
  let body : gmap string string := <["groupId" := groupID]> ∅ in
  let body :=
    match remove with
    | Some true => <["remove" := "true"]> body
    | Some false => <["remove" := "false"]> body
    | None => body
    end in
  let* _ := try (POST P c ("/market/" +:+ PathEscape P id +:+ "/group") (BodyStrings body))
              (fun err => Errorf "Market: Group: %w: %w" [ErrorPOSTFailed; err]) in
  ret tt.

Definition resolveMarket (id : string) (params : gmap string GoValue)
  : M (Decoded TLiteMarket) :=
  let* result :=
    try (POST P c ("/market/" +:+ PathEscape P id +:+ "/resolve") (BodyValues params))
      (fun err => Errorf "Market: resolveMarket: %w" [err]) in
  decode P TLiteMarket result (fun err => Errorf "Market: resolveMarket: %w" [err]).

Definition ResolveBinary (id outcome : string) (probabilityInt : option int)
  : M (Decoded TLiteMarket) :=
  let* _ := guard (checkOneOf outcome ["YES"; "NO"; "MKT"; "CANCEL"])
              (fun err => Errorf "Market: ResolveBinary: %w" [err]) in
  let* _ :=
    match probabilityInt with
    | Some p =>
        if go_eq outcome "MKT"
        then guard (checkInRange p 0 100)
               (fun err => Errorf "Market: ResolveBinary: %w" [err])
        else ret tt
    | None => ret tt
    end in
  let params : gmap string GoValue := <["outcome" := VString outcome]> ∅ in
  let params :=
    match probabilityInt with
    | Some p => <["probabilityInt" := VInt p]> params
    | None => params
    end in
  resolveMarket id params.

Definition ResolveFreeResponse (id outcome : string) (resolutions : slice Resolution)
  : M (Decoded TLiteMarket) :=
  let* _ :=
    match checkOneOf outcome ["MKT"; "CANCEL"] with
    | Some err =>
        reject_if (go_eq outcome "MKT" && isNil resolutions)
          (Errorf "Market: ResolveFreeResponse: outcome cannot be a specific answer without resolutions" [])
    | None => ret tt
    end in
  let params : gmap string GoValue := <["outcome" := VString outcome]> ∅ in
  let* params :=
    if go_eq outcome "MKT" && (0 <? len resolutions)
    then
      let* _ := reject_if (negb (totalPct (elems resolutions) =? 100))
                  (Errorf "Market: ResolveFreeResponse: total percentages of resolutions must add up to 100" []) in
      ret (<["resolutions" := VResolutions resolutions]> params)
    else ret params in
  resolveMarket id params.

Definition ResolveNumeric (id outcome : string) (value : option float64)
    (probabilityInt : option int) : M (Decoded TLiteMarket) :=
  let* _ := guard (checkOneOf outcome ["CANCEL"])
              (fun err => Errorf "Market: ResolveNumeric: %w" [err]) in
  let* _ :=
    match value, probabilityInt with
    | Some _, Some p =>
        guard (checkInRange p 0 100)
          (fun err => Errorf "Market: ResolveNumeric: %w" [err])
    | _, _ => ret tt
    end in
  let params : gmap string GoValue := <["outcome" := VString outcome]> ∅ in
  let params :=
    match value with
    | Some value => <["value" := VFloat64 value]> params
    | None => params
    end in
  let params :=
    match probabilityInt with
    | Some p => <["probabilityInt" := VInt p]> params
    | None => params
    end in
  resolveMarket id params.

Definition Sell (id : string) (outcome : option string) (shares : option float64)
    (answerID : option string) : M (Decoded TBet) :=
  let body : gmap string string := ∅ in
  let* body :=
    match outcome with
    | Some outcome =>
        let* _ := guard (checkOneOf outcome ["YES"; "NO"])
                    (fun err => Errorf "Market: Sell(outcome): %w" [err]) in
        ret (<["outcome" := outcome]> body)
    | None => ret body
    end in
  let* body :=
    match shares with
    | Some shares =>
        let* _ := reject_if (SFleb shares f64_zero)
                    (Errorf "Market: Sell(shares): invalid value: %f, value must be >0" []) in
        ret (<["shares" := sprintf_f P shares]> body)
    | None => ret body
    end in
  let body := setIfPresent "answerId" answerID body in
  let* result := try (POST P c ("/market/" +:+ PathEscape P id +:+ "/sell") (BodyStrings body))
                   (fun err => Errorf "Market: Sell: %w: %w" [ErrorPOSTFailed; err]) in
  decode P TBet result
    (fun err => Errorf "Market: Sell: %w: %w" [ErrorFailedToParseResponse; err]).

End Service.
End MarketService.

(** ** Vocabulary of the properties *)

(** The call returns a validation error and has handed no request to the
    HTTP client: the world after the call is the world before it. *)
Definition rejects {A} (m : M A) (w : World) : Prop :=
  ∃ e, m w = (Err e, w) ∧ validationError e = true.

(** A method validates its pagination parameter [limit] against [0, 1000]:
    a limit outside is rejected, and a limit inside is no reason to reject
    (the call is rejected exactly when it is without a limit). *)
Definition limitValidated {A} (f : option int → M A) : Prop :=
  ∀ (w : World) (limit : int),
    (¬ (0 ≤ limit ≤ 1000) → rejects (f (Some limit)) w) ∧
    (0 ≤ limit ≤ 1000 → (rejects (f (Some limit)) w ↔ rejects (f None) w)).

(** The same for [offset] and [offset >= 0]. *)
Definition offsetValidated {A} (f : option int → M A) : Prop :=
  ∀ (w : World) (offset : int),
    (¬ (0 ≤ offset) → rejects (f (Some offset)) w) ∧
    (0 ≤ offset → (rejects (f (Some offset)) w ↔ rejects (f None) w)).

(** The sum of the percentages as integers, without wrap-around. *)
Definition sumPct (resolutions : list Resolution) : Z :=
  fold_right (fun resolution total => Pct resolution + total) 0 resolutions.

(** A platform on which everything succeeds: every URL parses, the server
    answers 200 with an empty JSON object, every body is encoded. *)
Definition loopback : Platform :=
  {| newRequestError := fun _ => None;
     roundTrip := fun _ _ => inl {| StatusCode := 200; bodyData := "{}"; bodyErr := None |};
     jsonMarshal := fun _ => inl "{...}";
     jsonUnmarshal := fun _ _ => None;
     sprintf_f := fun _ => "%f";
     PathEscape := fun s => s |}.

Definition world0 : World := {| clock := 1700000000000000000; wire := [] |}.

(** A platform whose server answers every request with HTTP 404 and an
    error body. *)
Definition notFound : Platform :=
  {| newRequestError := newRequestError loopback;
     roundTrip := fun _ _ =>
       inl {| StatusCode := 404; bodyData := "{message: Not found}"; bodyErr := None |};
     jsonMarshal := jsonMarshal loopback;
     jsonUnmarshal := jsonUnmarshal loopback;
     sprintf_f := sprintf_f loopback;
     PathEscape := PathEscape loopback |}.

(** [json.Marshal] returns an [UnsupportedValueError] for a float that is
    NaN or infinite; every other value stored in a body is encodable. *)
Definition encodable (v : GoValue) : bool :=
  match v with
  | VFloat64 (S754_nan | S754_infinity _) => false
  | _ => true
  end.

(** [loopback] with that rule of [json.Marshal]. *)
Definition strictJSON : Platform :=
  {| newRequestError := newRequestError loopback;
     roundTrip := roundTrip loopback;
     jsonMarshal := fun body =>
       match body with
       | BodyValues m =>
           if forallb (fun kv => encodable (snd kv)) (map_to_list m)
           then inl "{...}"
           else inr "json: unsupported value"
       | _ => inl "{...}"
       end;
     jsonUnmarshal := jsonUnmarshal loopback;
     sprintf_f := sprintf_f loopback;
     PathEscape := PathEscape loopback |}.

(** [errors.Is(e, target)] for a target that is one of the sentinels of
    errors.go: [e] is the sentinel or wraps it, at any depth. *)
Definition sameSentinel (target e : error) : bool :=
  match target, e with
  | ErrorGETFailed, ErrorGETFailed => true
  | ErrorPOSTFailed, ErrorPOSTFailed => true
  | ErrorFailedToParseResponse, ErrorFailedToParseResponse => true
  | _, _ => false
  end.

Fixpoint errorsIs (e target : error) : bool :=
  sameSentinel target e ||
  match e with
  | Errorf _ wrapped => existsb (fun inner => errorsIs inner target) wrapped
  | _ => false
  end.

(** A method validates an optional enumerated parameter against [allowed]:
    a value outside is rejected, and a value inside is no reason to reject. *)
Definition enumValidated {A} (allowed : list string) (f : option string → M A) : Prop :=
  ∀ (w : World) (value : string),
    (¬ In value allowed → rejects (f (Some value)) w) ∧
    (In value allowed → (rejects (f (Some value)) w ↔ rejects (f None) w)).

(** The three ways a method ends in an error: a validation error with no
    request made; a transport error, which wraps [failed]; a decoding
    error, which wraps [ErrorFailedToParseResponse] and comes after the
    request. *)
Definition errorStages {A} (failed : error) (m : M A) : Prop :=
  ∀ (w w' : World) (e : error),
    m w = (Err e, w') →
    (validationError e = true ∧ w' = w) ∨
    (validationError e = false ∧ errorsIs e failed = true
     ∧ errorsIs e ErrorFailedToParseResponse = false) ∨
    (validationError e = false ∧ errorsIs e ErrorFailedToParseResponse = true
     ∧ errorsIs e failed = false ∧ ∃ req, w' = sent req w).

(** No error of the method is, or wraps, a sentinel of errors.go. *)
Definition noSentinel {A} (m : M A) : Prop :=
  ∀ (w w' : World) (e : error),
    m w = (Err e, w') →
    errorsIs e ErrorGETFailed = false ∧
    errorsIs e ErrorPOSTFailed = false ∧
    errorsIs e ErrorFailedToParseResponse = false.

(** A method that does not read the response: whenever its POST of [body]
    to [endpoint] gets a response that is read to its end, whatever the
    status and the bytes, it returns nil. *)
Definition succeedsOnAnyResponse (P : Platform) (c : Client) (m : M unit)
    (endpoint : string) (body : Body) : Prop :=
  ∀ (w : World) (jsonBody : bytes) (resp : Response),
    marshal P body = inl jsonBody →
    newRequestError P (BaseURL c +:+ endpoint) = None →
    roundTrip P (wire w) (postRequest c endpoint jsonBody) = inl resp →
    bodyErr resp = None →
    m w = (Ok tt, sent (postRequest c endpoint jsonBody) w).

(** The method hands [body] to the server: on a platform that encodes the
    body and parses the URL, the call leaves on the wire exactly the POST
    request to [endpoint] whose payload is the encoding of [body]. *)
Definition sends {A} (P : Platform) (c : Client) (m : M A) (endpoint : string) (body : Body)
    (w : World) : Prop :=
  ∀ jsonBody : bytes,
    marshal P body = inl jsonBody →
    newRequestError P (BaseURL c +:+ endpoint) = None →
    snd (m w) = sent (postRequest c endpoint jsonBody) w.

(** A readable encoding of a body, key by key, for a platform on which the
    payload of a request shows what the body held. *)
Definition showValue (v : GoValue) : string :=
  match v with
  | VString s => s
  | VInt n => pretty n
  | VInt64 n => pretty n
  | VFloat64 _ => "float"
  | VBool true => "true"
  | VBool false => "false"
  | VStrings l => String.concat "," (elems l)
  | VResolutions l =>
      String.concat "," (map (fun r => pretty (Answer r) +:+ "/" +:+ pretty (Pct r)) (elems l))
  end.

Definition showBody (body : Body) : bytes :=
  match body with
  | BodyNil => ""
  | BodyStrings m =>
      String.concat "" (map (fun kv => fst kv +:+ "=" +:+ snd kv +:+ ";") (map_to_list m))
  | BodyValues m =>
      String.concat ""
        (map (fun kv => fst kv +:+ "=" +:+ showValue (snd kv) +:+ ";") (map_to_list m))
  end.

(** [loopback] with that encoding for [json.Marshal]. *)
Definition plain : Platform :=
  {| newRequestError := newRequestError loopback;
     roundTrip := roundTrip loopback;
     jsonMarshal := fun body => inl (showBody body);
     jsonUnmarshal := jsonUnmarshal loopback;
     sprintf_f := sprintf_f loopback;
     PathEscape := PathEscape loopback |}.

(** * Properties *)

Section Primitives.

Lemma checkInRange_int (value min max : int) :
  checkInRange value min max = None ↔ min ≤ value ≤ max.
Proof.
  unfold checkInRange, go_lt, int_Ordered.
  destruct (Z.ltb_spec value min), (Z.ltb_spec max value); cbn; split;
    intros; try discriminate; try reflexivity; lia.
Qed.

Lemma checkInRange_error {T} `{Ordered T} (value min max : T) (e : error) :
  checkInRange value min max = Some e → validationError e = true.
Proof.
  unfold checkInRange. destruct (_ || _); intros [= <-]; reflexivity.
Qed.

Lemma checkOneOf_error {T} `{Comparable T} (value : T) (allowed : list T) (e : error) :
  checkOneOf value allowed = Some e → validationError e = true.
Proof.
  induction allowed as [|a rest IH]; cbn.
  - intros [= <-]. reflexivity.
  - destruct (go_eq value a); [discriminate | exact IH].
Qed.

Lemma checkOneOf_string (value : string) (allowed : list string) :
  checkOneOf value allowed = None ↔ In value allowed.
Proof.
  induction allowed as [|a rest IH]; cbn.
  - split; [discriminate | tauto].
  - unfold go_eq, string_Comparable.
    destruct (String.eqb_spec value a) as [-> | Hne].
    + split; auto.
    + rewrite IH. split; [auto | intros [Heq | Hin]; [congruence | exact Hin]].
Qed.

End Primitives.

(** ** Requests and rejections *)

Lemma sent_neq (req : Request) (w : World) : sent req w ≠ w.
Proof.
  intros H. apply (f_equal wire) in H. cbn in H.
  apply (f_equal (@length Request)) in H. cbn in H. lia.
Qed.

Ltac world_grew :=
  let H := fresh in
  intros H; apply (f_equal snd) in H; cbn in H; exact (sent_neq _ _ H).

(** Once a read method reaches its [GET], it is past validation: the error
    it may still return wraps [ErrorGETFailed] or comes after a request. *)
Lemma read_not_rejected (P : Platform) (c : Client) (t : Target) (endpoint : string)
    (params : gmap string string) (f g : string) (w : World) :
  ¬ rejects (let* result := try (GET P c endpoint params)
                              (fun err => Errorf f [ErrorGETFailed; err]) in
             decode P t result (fun err => Errorf g [ErrorFailedToParseResponse; err])) w.
Proof.
  intros (e & Hrun & Hval). revert Hrun.
  unfold bind, try, GET, execute, decode, throw, ret.
  destruct (newRequestError P _).
  - intros [= <-]. discriminate Hval.
  - destruct (roundTrip P _ _) as [resp | err].
    + destruct (bodyErr resp); cbn; [world_grew |].
      destruct (jsonUnmarshal P t (bodyData resp)); world_grew.
    + world_grew.
Qed.

(** One validation step of a method: case analysis on its check. *)
Ltac step :=
  cbn [bind guard reject_if throw ret timeNow isNil];
  match goal with
  | |- context [guard ?chk _] =>
      lazymatch chk with
      | Some _ => fail
      | None => fail
      | _ => destruct chk eqn:?
      end
  | |- context [reject_if ?b _] =>
      lazymatch b with
      | true => fail
      | false => fail
      | _ => destruct b eqn:?
      end
  | |- context [match ?o with Some _ => _ | None => _ end] => is_var o; destruct o
  end.

Ltac validation :=
  cbn [validationError forallb];
  repeat match goal with
         | H : checkInRange _ _ _ = Some ?e |- context [validationError ?e] =>
             rewrite (checkInRange_error _ _ _ _ H)
         | H : checkOneOf _ _ = Some ?e |- context [validationError ?e] =>
             rewrite (checkOneOf_error _ _ _ H)
         end;
  reflexivity.

Ltac rejected := eexists; split; [reflexivity | validation].

Ltac read_reached :=
  let H := fresh in
  intros H; exfalso; revert H; apply read_not_rejected.

Ltac settle :=
  repeat step; cbn [bind guard reject_if throw ret timeNow isNil];
  first [ rejected
        | split; first [ read_reached | intros _; rejected ] ].

(** The proof of [limitValidated] for a method whose definition is unfolded. *)
Ltac limit_rule :=
  let w := fresh "w" in
  let limit := fresh "limit" in
  let Hl := fresh "Hl" in
  let E := fresh "E" in
  intros w limit; split; intros Hl;
  [ destruct (checkInRange limit 0 1000) eqn:E;
    [ settle | apply checkInRange_int in E; contradiction ]
  | apply checkInRange_int in Hl; rewrite Hl; settle ].

Ltac offset_rule :=
  let w := fresh "w" in
  let offset := fresh "offset" in
  let Hl := fresh "Hl" in
  intros w offset; split; intros Hl;
  [ replace (offset <? 0) with true by (symmetry; apply Z.ltb_lt; lia); settle
  | replace (offset <? 0) with false by (symmetry; apply Z.ltb_ge; lia); settle ].

Section Pagination.
Variable P : Platform.
Variable c : Client.

Lemma Users_limit before :
  limitValidated (fun limit => UserService.Users P c limit before).
Proof. unfold UserService.Users. limit_rule. Qed.

Lemma Managrams_limit toID fromID before after :
  limitValidated (fun limit => ManaService.Managrams P c toID fromID limit before after).
Proof. unfold ManaService.Managrams. limit_rule. Qed.

Lemma Comments_limit contractID contractSlug offset userID :
  limitValidated
    (fun limit => CommentService.Comments P c contractID contractSlug limit offset userID).
Proof. unfold CommentService.Comments. limit_rule. Qed.

Lemma Comments_offset contractID contractSlug limit userID :
  offsetValidated
    (fun offset => CommentService.Comments P c contractID contractSlug limit offset userID).
Proof. unfold CommentService.Comments. offset_rule. Qed.

Lemma Markets_limit sort order before userID groupID :
  limitValidated
    (fun limit => MarketService.Markets P c limit sort order before userID groupID).
Proof. unfold MarketService.Markets. limit_rule. Qed.

Lemma Search_limit term sort filter contractType topicSlug creatorID offset :
  limitValidated
    (fun limit =>
       MarketService.Search P c term sort filter contractType topicSlug creatorID limit offset).
Proof. unfold MarketService.Search. limit_rule. Qed.

Lemma Search_offset term sort filter contractType topicSlug creatorID limit :
  offsetValidated
    (fun offset =>
       MarketService.Search P c term sort filter contractType topicSlug creatorID limit offset).
Proof. unfold MarketService.Search. offset_rule. Qed.

Lemma Bets_limit userID username contractID contractSlug before after beforeTime afterTime
    kinds order :
  limitValidated
    (fun limit =>
       BetService.Bets P c userID username contractID contractSlug limit before after
         beforeTime afterTime kinds order).
Proof. unfold BetService.Bets. limit_rule. Qed.

End Pagination.

(** C6. Every list method with pagination parameters (Users, Managrams,
    Comments, Markets, Search, Bets) rejects a supplied [limit] outside
    [0, 1000] before any request and never rejects because of a limit
    inside; Comments and Search do the same for [offset] and [offset >= 0];
    and on integers [checkInRange value min max] returns nil exactly when
    [min <= value <= max]. *)
Theorem pagination_bounds (P : Platform) (c : Client) :
  (∀ value min max : int, checkInRange value min max = None ↔ min ≤ value ≤ max) ∧
  (∀ before,
     limitValidated (fun limit => UserService.Users P c limit before)) ∧
  (∀ toID fromID before after,
     limitValidated (fun limit => ManaService.Managrams P c toID fromID limit before after)) ∧
  (∀ contractID contractSlug offset userID,
     limitValidated
       (fun limit => CommentService.Comments P c contractID contractSlug limit offset userID)) ∧
  (∀ sort order before userID groupID,
     limitValidated
       (fun limit => MarketService.Markets P c limit sort order before userID groupID)) ∧
  (∀ term sort filter contractType topicSlug creatorID offset,
     limitValidated
       (fun limit =>
          MarketService.Search P c term sort filter contractType topicSlug creatorID
            limit offset)) ∧
  (∀ userID username contractID contractSlug before after beforeTime afterTime kinds order,
     limitValidated
       (fun limit =>
          BetService.Bets P c userID username contractID contractSlug limit before after
            beforeTime afterTime kinds order)) ∧
  (∀ contractID contractSlug limit userID,
     offsetValidated
       (fun offset => CommentService.Comments P c contractID contractSlug limit offset userID)) ∧
  (∀ term sort filter contractType topicSlug creatorID limit,
     offsetValidated
       (fun offset =>
          MarketService.Search P c term sort filter contractType topicSlug creatorID
            limit offset)).
Proof.
  split; [exact checkInRange_int |].
  split; [intros; apply Users_limit |].
  split; [intros; apply Managrams_limit |].
  split; [intros; apply Comments_limit |].
  split; [intros; apply Markets_limit |].
  split; [intros; apply Search_limit |].
  split; [intros; apply Bets_limit |].
  split; [intros; apply Comments_offset | intros; apply Search_offset].
Qed.

(** ** Write methods *)

(** Once a write method reaches its [POST], it is past validation. *)
Lemma write_not_rejected (P : Platform) (c : Client) (t : Target) (endpoint : string)
    (body : Body) (f g : string) (w : World) :
  ¬ rejects (let* result := try (POST P c endpoint body)
                              (fun err => Errorf f [ErrorPOSTFailed; err]) in
             decode P t result (fun err => Errorf g [ErrorFailedToParseResponse; err])) w.
Proof.
  intros (e & Hrun & Hval). revert Hrun.
  unfold bind, try, POST, execute, decode, throw, ret.
  destruct (marshal P body) as [jsonBody | err].
  - destruct (newRequestError P _).
    + intros [= <-]. discriminate Hval.
    + destruct (roundTrip P _ _) as [resp | err].
      * destruct (bodyErr resp); cbn; [world_grew |].
        destruct (jsonUnmarshal P t (bodyData resp)); world_grew.
      * world_grew.
  - intros [= <-]. discriminate Hval.
Qed.

(** C8. The code at the failing input: an [amount] of zero, which is not
    greater than zero, is not rejected by AddLiquidity, AddBounty or
    AwardBounty, whose check is [amount < 0]; a negative amount is. *)
Theorem zero_amount_not_rejected (P : Platform) (c : Client) (id commentID : string)
    (w : World) :
  SFleb f64_zero f64_zero = true ∧
  ¬ rejects (MarketService.AddLiquidity P c id f64_zero) w ∧
  ¬ rejects (MarketService.AddBounty P c id f64_zero) w ∧
  ¬ rejects (MarketService.AwardBounty P c id f64_zero commentID) w ∧
  rejects (MarketService.AddLiquidity P c id (SFopp f64_one)) w.
Proof.
  split; [reflexivity |].
  split; [apply write_not_rejected |].
  split; [apply write_not_rejected |].
  split; [apply write_not_rejected |].
  unfold MarketService.AddLiquidity. cbn. rejected.
Qed.

(** C3. The code at the failing input: Search enters the search term under
    the key that is the term itself, [params[term] = term], so the query of
    a search for "election" has no key "term". *)
Theorem Search_term_key :
  (∀ (P : Platform) (c : Client) (term : string) (w : World),
     MarketService.Search P c term None None None None None None None w
     = (let* result := try (GET P c "/search-markets" (<[term := term]> ∅))
                         (fun err => Errorf "Market: Search: %w: %w" [ErrorGETFailed; err]) in
        decode P TLiteMarkets result
          (fun err => Errorf "Market: Search: %w: %w" [ErrorFailedToParseResponse; err])) w) ∧
  ∃ req,
    snd (MarketService.Search loopback (NewClient "") "election"
           None None None None None None None world0) = sent req world0 ∧
    query req !! "term" = None ∧
    query req !! "election" = Some "election".
Proof.
  split; [reflexivity |].
  eexists. split; [reflexivity |]. split; reflexivity.
Qed.

(** The read methods other than Search use literal keys, for instance
    Comments puts [contractID] under "contractId". *)
Lemma Comments_contractId (contractID : string) :
  ∃ req,
    snd (CommentService.Comments loopback (NewClient "") (Some contractID)
           None None None None world0) = sent req world0 ∧
    query req !! "contractId" = Some contractID.
Proof.
  eexists. split; [reflexivity |]. cbn. apply lookup_insert_eq.
Qed.

(** C4. The code at the failing input: ResolveFreeResponse does not reject
    an outcome outside {"MKT", "CANCEL"}: inside [if err != nil] the
    condition [outcome == "MKT"] is never true, and the resolve request is
    made with the outcome as given; ResolveBinary and ResolveNumeric
    reject the same outcome. *)
Theorem ResolveFreeResponse_outcome_unchecked (P : Platform) (c : Client) (id : string)
    (resolutions : slice Resolution) (w : World) :
  checkOneOf "FOO" ["MKT"; "CANCEL"] ≠ None ∧
  MarketService.ResolveFreeResponse P c id "FOO" resolutions w
    = MarketService.resolveMarket P c id (<["outcome" := VString "FOO"]> ∅) w ∧
  rejects (MarketService.ResolveBinary P c id "FOO" None) w ∧
  rejects (MarketService.ResolveNumeric P c id "FOO" None None) w.
Proof.
  split; [discriminate |]. split; [| split].
  - unfold MarketService.ResolveFreeResponse. cbn. reflexivity.
  - unfold MarketService.ResolveBinary. cbn. rejected.
  - unfold MarketService.ResolveNumeric. cbn. rejected.
Qed.

(** ** What reaches the server *)

(** Once a Resolve method reaches [resolveMarket], it is past validation. *)
Lemma resolve_reached (P : Platform) (c : Client) (id : string)
    (params : gmap string GoValue) (w : World) :
  ¬ rejects (MarketService.resolveMarket P c id params) w.
Proof.
  intros (e & Hrun & Hval). revert Hrun.
  unfold MarketService.resolveMarket, bind, try, POST, execute, decode, throw, ret.
  destruct (marshal P _) as [jsonBody | err].
  - destruct (newRequestError P _).
    + intros [= <-]. discriminate Hval.
    + destruct (roundTrip P _ _) as [resp | err].
      * destruct (bodyErr resp); cbn; [world_grew |].
        destruct (jsonUnmarshal P _ (bodyData resp)); world_grew.
      * world_grew.
  - intros [= <-]. discriminate Hval.
Qed.

Lemma POST_sends (P : Platform) (c : Client) (endpoint : string) (body : Body)
    (jsonBody : bytes) (w : World) :
  marshal P body = inl jsonBody →
  newRequestError P (BaseURL c +:+ endpoint) = None →
  snd (POST P c endpoint body w) = sent (postRequest c endpoint jsonBody) w.
Proof.
  intros Hjson Hurl. unfold POST, execute. rewrite Hjson, Hurl.
  destruct (roundTrip P _ _); reflexivity.
Qed.

Lemma decoded_world (P : Platform) (t : Target) (call : World → (bytes * option error) * World)
    (f g : error → error) (w : World) :
  snd ((let* result := try call f in decode P t result g) w) = snd (call w).
Proof.
  unfold bind, try, decode, throw, ret.
  destruct (call w) as [[result [err |]] w']; [reflexivity |].
  destruct (jsonUnmarshal P t result); reflexivity.
Qed.

Lemma resolveMarket_sends (P : Platform) (c : Client) (id : string)
    (params : gmap string GoValue) (w : World) :
  sends P c (MarketService.resolveMarket P c id params)
    ("/market/" +:+ PathEscape P id +:+ "/resolve") (BodyValues params) w.
Proof.
  intros jsonBody Hjson Hurl. unfold MarketService.resolveMarket.
  rewrite decoded_world. apply POST_sends; assumption.
Qed.

Lemma createMarket_sends (P : Platform) (c : Client) (params : gmap string GoValue)
    (w : World) :
  sends P c (MarketService.createMarket P c params) "/market" (BodyValues params) w.
Proof.
  intros jsonBody Hjson Hurl. unfold MarketService.createMarket.
  rewrite decoded_world. apply POST_sends; assumption.
Qed.

(** C9. ResolveBinary checks [probabilityInt] against [0, 100] only for the
    outcome "MKT": with "YES", "NO" or "CANCEL" every supplied value, also a
    negative one or one above 100, passes validation and is in the body of
    the resolve request that is sent; with "MKT" a value outside [0, 100]
    is rejected, a value inside is sent. *)
Theorem ResolveBinary_probabilityInt (P : Platform) (c : Client) (id : string)
    (p : int) (w : World) :
  (∀ outcome, In outcome ["YES"; "NO"; "CANCEL"] →
     MarketService.ResolveBinary P c id outcome (Some p) w
       = MarketService.resolveMarket P c id
           (<["probabilityInt" := VInt p]> (<["outcome" := VString outcome]> ∅)) w) ∧
  (¬ (0 ≤ p ≤ 100) → rejects (MarketService.ResolveBinary P c id "MKT" (Some p)) w) ∧
  (0 ≤ p ≤ 100 →
     MarketService.ResolveBinary P c id "MKT" (Some p) w
       = MarketService.resolveMarket P c id
           (<["probabilityInt" := VInt p]> (<["outcome" := VString "MKT"]> ∅)) w) ∧
  (∀ outcome, In outcome ["YES"; "NO"; "CANCEL"] ∨ (outcome = "MKT" ∧ 0 ≤ p ≤ 100) →
     ¬ rejects (MarketService.ResolveBinary P c id outcome (Some p)) w ∧
     sends P c (MarketService.ResolveBinary P c id outcome (Some p))
       ("/market/" +:+ PathEscape P id +:+ "/resolve")
       (BodyValues (<["probabilityInt" := VInt p]> (<["outcome" := VString outcome]> ∅))) w).
Proof.
  assert (Hfree : ∀ outcome, In outcome ["YES"; "NO"; "CANCEL"] →
            MarketService.ResolveBinary P c id outcome (Some p) w
            = MarketService.resolveMarket P c id
                (<["probabilityInt" := VInt p]> (<["outcome" := VString outcome]> ∅)) w)
    by (intros outcome [<- | [<- | [<- | []]]]; reflexivity).
  assert (Hmkt : 0 ≤ p ≤ 100 →
            MarketService.ResolveBinary P c id "MKT" (Some p) w
            = MarketService.resolveMarket P c id
                (<["probabilityInt" := VInt p]> (<["outcome" := VString "MKT"]> ∅)) w).
  { intros Hp. apply checkInRange_int in Hp.
    unfold MarketService.ResolveBinary. cbn. rewrite Hp. reflexivity. }
  split; [exact Hfree |]. split; [| split; [exact Hmkt |]].
  - intros Hp. unfold MarketService.ResolveBinary. cbn.
    destruct (checkInRange p 0 100) eqn:E.
    + cbn. rejected.
    + apply checkInRange_int in E. contradiction.
  - intros outcome Hcase.
    assert (Heq : MarketService.ResolveBinary P c id outcome (Some p) w
                  = MarketService.resolveMarket P c id
                      (<["probabilityInt" := VInt p]> (<["outcome" := VString outcome]> ∅)) w)
      by (destruct Hcase as [Hin | [-> Hp]]; [apply Hfree, Hin | apply Hmkt, Hp]).
    split.
    + intros (e & Hrun & Hval). rewrite Heq in Hrun.
      eapply resolve_reached. exists e. split; eassumption.
    + intros jsonBody Hjson Hurl. rewrite Heq.
      apply resolveMarket_sends; assumption.
Qed.

Lemma ResolveBinary_probabilityInt_witness :
  In "NO" ["YES"; "NO"; "CANCEL"] ∧
  MarketService.ResolveBinary plain (NewClient "") "m" "NO" (Some (-5)) world0
    = MarketService.resolveMarket plain (NewClient "") "m"
        (<["probabilityInt" := VInt (-5)]> (<["outcome" := VString "NO"]> ∅)) world0 ∧
  snd (MarketService.ResolveBinary plain (NewClient "") "m" "NO" (Some (-5)) world0)
    = sent (postRequest (NewClient "") "/market/m/resolve" "outcome=NO;probabilityInt=-5;")
        world0.
Proof.
  assert (H : In "NO" ["YES"; "NO"; "CANCEL"]) by (simpl; auto).
  split; [exact H |]. split.
  - exact (proj1 (ResolveBinary_probabilityInt plain (NewClient "") "m" (-5) world0) "NO" H).
  - apply (proj2 (proj2 (proj2 (proj2 (ResolveBinary_probabilityInt plain (NewClient "") "m"
                                         (-5) world0))) "NO" (or_introl H)));
      reflexivity.
Defined.

(** C10. Managram has no validation: for every [toIDs], [amount] and
    [message] it calls [POST] on "/managram" with the assembled body, and it
    returns an error exactly when that [POST] does. *)
Theorem Managram_unvalidated (P : Platform) (c : Client) (toIDs : slice string)
    (amount : float64) (message : option string) (w : World) :
  let body : gmap string GoValue :=
    <["amount" := VFloat64 amount]> (<["toIds" := VStrings toIDs]> ∅) in
  let body :=
    match message with
    | Some message => <["message" := VString message]> body
    | None => body
    end in
  ManaService.Managram P c toIDs amount message w =
    match POST P c "/managram" (BodyValues body) w with
    | ((_, Some err), w') =>
        (Err (Errorf "Mana: Managram: %w: %w" [ErrorPOSTFailed; err]), w')
    | ((_, None), w') => (Ok tt, w')
    end.
Proof.
  cbv zeta. unfold ManaService.Managram, bind, try, ret.
  destruct (POST P c _ _ w) as [[result [err |]] w']; reflexivity.
Qed.

(** ** 64-bit arithmetic *)

Lemma wrap64_id (z : Z) : MinInt ≤ z ≤ MaxInt → wrap64 z = z.
Proof.
  unfold wrap64, MinInt, MaxInt. intros Hz.
  rewrite Z.mod_small by lia. lia.
Qed.

(** C7, as amended. When [min + 1] and [max - 1] do not overflow,
    CreatePseudoNumeric accepts [initialValue] exactly when it lies strictly
    between [min] and [max]: the check is nil exactly then, a value outside
    is rejected before any request, and a value inside, the optional
    parameters being absent, leads to the create request. *)
Theorem CreatePseudoNumeric_initialValue (P : Platform) (c : Client) (question : string)
    (min max initialValue : int) (isLogScale : bool) (w : World) :
  MinInt ≤ min < MaxInt →
  MinInt < max ≤ MaxInt →
  (checkInRange initialValue (int_add min 1) (int_sub max 1) = None
     ↔ min < initialValue < max) ∧
  (∀ description closeTime visibility extraLiquidity,
     ¬ (min < initialValue < max) →
     rejects (MarketService.CreatePseudoNumeric P c question min max initialValue isLogScale
                description closeTime visibility extraLiquidity) w) ∧
  (min < initialValue < max →
   MarketService.CreatePseudoNumeric P c question min max initialValue isLogScale
     None None None None w
   = MarketService.createMarket P c
       (<["isLogScale" := VBool isLogScale]>
          (<["initialValue" := VInt initialValue]>
             (<["max" := VInt max]>
                (<["min" := VInt min]>
                   (<["question" := VString question]>
                      (<["outcomeType" := VString "PSEUDO_NUMERIC"]> ∅)))))) w).
Proof.
  intros Hmin Hmax.
  assert (Hspec : checkInRange initialValue (int_add min 1) (int_sub max 1) = None
                  ↔ min < initialValue < max).
  { unfold int_add, int_sub. rewrite !wrap64_id by lia.
    rewrite checkInRange_int. lia. }
  split; [exact Hspec |]. split.
  - intros description closeTime visibility extraLiquidity Hout.
    unfold MarketService.CreatePseudoNumeric.
    destruct (checkInRange initialValue (int_add min 1) (int_sub max 1)) eqn:E.
    + cbn [bind guard throw ret]. rejected.
    + exfalso. apply Hout, Hspec. reflexivity.
  - intros Hin. apply Hspec in Hin.
    unfold MarketService.CreatePseudoNumeric. rewrite Hin. reflexivity.
Qed.

Lemma CreatePseudoNumeric_initialValue_witness :
  (MinInt ≤ 0 < MaxInt ∧ MinInt < 10 ≤ MaxInt) ∧
  checkInRange 5 (int_add 0 1) (int_sub 10 1) = None ∧
  rejects (MarketService.CreatePseudoNumeric loopback (NewClient "") "q" 0 10 0 false
             None None None None) world0.
Proof.
  assert (H0 : MinInt ≤ 0 < MaxInt) by (unfold MinInt, MaxInt; lia).
  assert (H10 : MinInt < 10 ≤ MaxInt) by (unfold MinInt, MaxInt; lia).
  split; [exact (conj H0 H10) |]. split.
  - apply (proj1 (CreatePseudoNumeric_initialValue loopback (NewClient "") "q" 0 10 5 false
                    world0 H0 H10)).
    lia.
  - apply (proj1 (proj2 (CreatePseudoNumeric_initialValue loopback (NewClient "") "q" 0 10 0
                           false world0 H0 H10))).
    lia.
Defined.

(** C7, the claim as stated fails where [min + 1] overflows: with [min] the
    largest [int], [min + 1] is the smallest one, and an [initialValue] of 0,
    which is not above [min], passes the check and the request is made. *)
Lemma CreatePseudoNumeric_overflow :
  ¬ (MaxInt < 0 < 10) ∧
  checkInRange 0 (int_add MaxInt 1) (int_sub 10 1) = None ∧
  ∃ req,
    snd (MarketService.CreatePseudoNumeric loopback (NewClient "") "q" MaxInt 10 0 false
           None None None None world0) = sent req world0.
Proof.
  split; [unfold MaxInt; lia |]. split; [reflexivity |].
  eexists. reflexivity.
Qed.

(** ** Resolutions *)

Lemma totalPct_from (resolutions : list Resolution) (total : int) :
  (∀ r, In r resolutions → 0 ≤ Pct r) →
  0 ≤ total →
  total + sumPct resolutions ≤ MaxInt →
  fold_left (fun total resolution => int_add total (Pct resolution)) resolutions total
  = total + sumPct resolutions.
Proof.
  revert total. induction resolutions as [|r rest IH]; intros total Hpos Htotal Hmax.
  - cbn. lia.
  - cbn [fold_left].
    assert (0 ≤ Pct r) by (apply Hpos; left; reflexivity).
    assert (Hrest : ∀ r', In r' rest → 0 ≤ Pct r') by (intros; apply Hpos; right; assumption).
    assert (0 ≤ sumPct rest).
    { clear -Hrest. induction rest as [|r' rest IH]; [cbn; lia |].
      assert (0 ≤ Pct r') by (apply Hrest; left; reflexivity).
      assert (0 ≤ sumPct rest) by (apply IH; intros; apply Hrest; right; assumption).
      change (sumPct (r' :: rest)) with (Pct r' + sumPct rest). lia. }
    change (sumPct (r :: rest)) with (Pct r + sumPct rest) in *.
    unfold int_add at 2. rewrite wrap64_id by (unfold MinInt, MaxInt in *; lia).
    rewrite IH by (try assumption; lia). lia.
Qed.

Lemma totalPct_exact (resolutions : list Resolution) :
  (∀ r, In r resolutions → 0 ≤ Pct r) →
  sumPct resolutions ≤ MaxInt →
  MarketService.totalPct resolutions = sumPct resolutions.
Proof.
  intros Hpos Hmax. unfold MarketService.totalPct.
  rewrite totalPct_from by (try assumption; lia). lia.
Qed.

(** C2, as amended. For ResolveFreeResponse with outcome "MKT" and a
    non-empty [resolutions]: if [totalPct], the sum of the [Pct] values in
    [int] arithmetic, is not 100 the call is rejected before any request;
    if it is 100, validation passes and the resolve request that is sent
    has a body holding "outcome" and the "resolutions". [totalPct] is the
    exact sum when no percentage is negative and the sum fits an [int]. *)
Theorem ResolveFreeResponse_MKT (P : Platform) (c : Client) (id : string)
    (resolutions : slice Resolution) (w : World) :
  0 < len resolutions →
  (MarketService.totalPct (elems resolutions) ≠ 100 →
     rejects (MarketService.ResolveFreeResponse P c id "MKT" resolutions) w) ∧
  (MarketService.totalPct (elems resolutions) = 100 →
     MarketService.ResolveFreeResponse P c id "MKT" resolutions w
     = MarketService.resolveMarket P c id
         (<["resolutions" := VResolutions resolutions]>
            (<["outcome" := VString "MKT"]> ∅)) w ∧
     ¬ rejects (MarketService.ResolveFreeResponse P c id "MKT" resolutions) w ∧
     sends P c (MarketService.ResolveFreeResponse P c id "MKT" resolutions)
       ("/market/" +:+ PathEscape P id +:+ "/resolve")
       (BodyValues (<["resolutions" := VResolutions resolutions]>
                      (<["outcome" := VString "MKT"]> ∅))) w) ∧
  ((∀ r, In r (elems resolutions) → 0 ≤ Pct r) →
   sumPct (elems resolutions) ≤ MaxInt →
   MarketService.totalPct (elems resolutions) = sumPct (elems resolutions)).
Proof.
  intros Hlen. apply Z.ltb_lt in Hlen.
  split; [| split].
  - intros Hsum. apply Z.eqb_neq in Hsum.
    unfold MarketService.ResolveFreeResponse. cbn. rewrite Hlen, Hsum. cbn. rejected.
  - intros Hsum. apply Z.eqb_eq in Hsum.
    assert (Heq : MarketService.ResolveFreeResponse P c id "MKT" resolutions w
                  = MarketService.resolveMarket P c id
                      (<["resolutions" := VResolutions resolutions]>
                         (<["outcome" := VString "MKT"]> ∅)) w)
      by (unfold MarketService.ResolveFreeResponse; cbn; rewrite Hlen, Hsum; reflexivity).
    split; [exact Heq |]. split.
    + intros (e & Hrun & Hval). rewrite Heq in Hrun.
      eapply resolve_reached. exists e. split; eassumption.
    + intros jsonBody Hjson Hurl. rewrite Heq.
      apply resolveMarket_sends; assumption.
  - apply totalPct_exact.
Qed.

Lemma ResolveFreeResponse_MKT_witness :
  let resolutions := Some [ {| Answer := 0; Pct := 60 |}; {| Answer := 1; Pct := 40 |} ] in
  let short := Some [ {| Answer := 0; Pct := 60 |}; {| Answer := 1; Pct := 39 |} ] in
  (0 < len resolutions ∧ MarketService.totalPct (elems resolutions) = 100 ∧
   0 < len short ∧ MarketService.totalPct (elems short) ≠ 100) ∧
  snd (MarketService.ResolveFreeResponse plain (NewClient "") "m" "MKT" resolutions world0)
  = sent (postRequest (NewClient "") "/market/m/resolve"
            "outcome=MKT;resolutions=0/60,1/40;") world0 ∧
  rejects (MarketService.ResolveFreeResponse plain (NewClient "") "m" "MKT" short) world0.
Proof.
  cbv zeta.
  split; [split; [reflexivity | split; [reflexivity | split; [reflexivity | discriminate]]] |].
  split.
  - apply (proj2 (proj2 (proj1 (proj2 (ResolveFreeResponse_MKT plain (NewClient "") "m"
                                         (Some [ {| Answer := 0; Pct := 60 |};
                                                 {| Answer := 1; Pct := 40 |} ])
                                         world0 eq_refl)) eq_refl)));
      reflexivity.
  - apply (proj1 (ResolveFreeResponse_MKT plain (NewClient "") "m"
                    (Some [ {| Answer := 0; Pct := 60 |}; {| Answer := 1; Pct := 39 |} ])
                    world0 eq_refl)).
    discriminate.
Defined.

(** C2, the claim as stated fails in two ways. For an empty, non-nil
    [resolutions] the sum of no percentages is 0, not 100, but the check is
    under [len(resolutions) > 0] and the resolve request is sent, without
    "resolutions". And the sum is taken in [int] arithmetic: percentages
    whose exact sum is 2^64 + 100 add up to 100 and pass. *)
Lemma ResolveFreeResponse_MKT_unchecked :
  (sumPct (elems (Some [])) ≠ 100 ∧
   snd (MarketService.ResolveFreeResponse plain (NewClient "") "m" "MKT" (Some []) world0)
   = sent (postRequest (NewClient "") "/market/m/resolve" "outcome=MKT;") world0) ∧
  (let huge := [ {| Answer := 0; Pct := MaxInt |}; {| Answer := 1; Pct := MaxInt |};
                 {| Answer := 2; Pct := 102 |} ] in
   sumPct huge = 2 ^ 64 + 100 ∧
   sumPct huge ≠ 100 ∧
   ∃ jsonBody,
     snd (MarketService.ResolveFreeResponse plain (NewClient "") "m" "MKT" (Some huge) world0)
     = sent (postRequest (NewClient "") "/market/m/resolve" jsonBody) world0).
Proof.
  split; [split; [discriminate | reflexivity] |].
  cbv zeta. split; [reflexivity |]. split; [discriminate |].
  eexists. reflexivity.
Qed.

(** ** Limit orders *)

(** C1, as amended. BetService.Create with a non-nil [expiresAt] returns a
    validation error before any POST if [limitProb] is nil, whatever the
    other arguments; and, [limitProb] nil or not, if [expiresAt] is before
    the current time ([time.Now().After] of [expiresAt]). *)
Theorem Create_expiresAt (P : Platform) (c : Client) (amount : float64)
    (contractID : string) (outcome : option string) (limitProb : option float64)
    (expiresAt : Time) (dryRun : option bool) (w : World) :
  rejects (BetService.Create P c amount contractID outcome None (Some expiresAt) dryRun) w ∧
  (expiresAt < clock w →
     rejects (BetService.Create P c amount contractID outcome limitProb (Some expiresAt)
                dryRun) w).
Proof.
  split.
  - unfold BetService.Create. settle.
  - intros Hpast.
    assert (Hafter : After (clock w) expiresAt = true)
      by (unfold After; apply Z.ltb_lt; exact Hpast).
    unfold BetService.Create.
    repeat step; unfold rejects;
      cbv [bind guard reject_if throw ret timeNow isNil];
      rewrite ?Hafter; eexists; (split; [reflexivity | validation]).
Qed.

Lemma Create_expiresAt_witness :
  clock world0 - 1 < clock world0 ∧
  rejects (BetService.Create loopback (NewClient "") f64_one "c" (Some "YES") None
             (Some (clock world0 + 1)) (Some true)) world0 ∧
  rejects (BetService.Create loopback (NewClient "") f64_one "c" None (Some f64_half)
             (Some (clock world0 - 1)) None) world0.
Proof.
  split; [lia |]. split.
  - apply (proj1 (Create_expiresAt loopback (NewClient "") f64_one "c" (Some "YES") None
                    (clock world0 + 1) (Some true) world0)).
  - apply (proj2 (Create_expiresAt loopback (NewClient "") f64_one "c" None (Some f64_half)
                    (clock world0 - 1) None world0)).
    lia.
Defined.

(** C1, the claim as stated fails when [expiresAt] is the current time: it
    is then not strictly in the future, but [time.Now().After] of [expiresAt]
    is false, validation passes and the POST is made. *)
Lemma Create_expiresAt_now :
  ¬ (clock world0 < clock world0) ∧
  checkInRange f64_half f64_zero f64_one = None ∧
  ∃ req,
    snd (BetService.Create loopback (NewClient "") f64_one "c" None (Some f64_half)
           (Some (clock world0)) None world0) = sent req world0 ∧
    method req = MPOST.
Proof.
  split; [lia |]. split; [reflexivity |].
  eexists. split; reflexivity.
Qed.

(** ** The transport client *)

(** C5, as amended. [Client.GET] returns an error only when the URL does
    not parse, when the HTTP execution fails or when reading the response
    body fails; [Client.POST] also when [json.Marshal] of the body fails,
    before any request is made. Neither looks at the status code: for every
    response whose body is read to its end, whatever its status, they
    return the bytes of the body and a nil error. *)
Theorem transport_errors (P : Platform) (c : Client) (endpoint : string)
    (params : gmap string string) (body : Body) (w : World) :
  let url := BaseURL c +:+ endpoint in
  let get := getRequest c endpoint params in
  (∀ err, snd (fst (GET P c endpoint params w)) = Some err →
     ∃ text, err = External text ∧
       (newRequestError P url = Some text
        ∨ roundTrip P (wire w) get = inr text
        ∨ ∃ resp, roundTrip P (wire w) get = inl resp ∧ bodyErr resp = Some text)) ∧
  (∀ err, snd (fst (POST P c endpoint body w)) = Some err →
     ∃ text, err = External text ∧
       (marshal P body = inr text
        ∨ ∃ jsonBody, marshal P body = inl jsonBody ∧
            (newRequestError P url = Some text
             ∨ roundTrip P (wire w) (postRequest c endpoint jsonBody) = inr text
             ∨ ∃ resp, roundTrip P (wire w) (postRequest c endpoint jsonBody) = inl resp
                       ∧ bodyErr resp = Some text))) ∧
  (∀ resp,
     newRequestError P url = None →
     roundTrip P (wire w) get = inl resp →
     bodyErr resp = None →
     GET P c endpoint params w = ((bodyData resp, None), sent get w)) ∧
  (∀ jsonBody resp,
     marshal P body = inl jsonBody →
     newRequestError P url = None →
     roundTrip P (wire w) (postRequest c endpoint jsonBody) = inl resp →
     bodyErr resp = None →
     POST P c endpoint body w = ((bodyData resp, None), sent (postRequest c endpoint jsonBody) w)).
Proof.
  cbv zeta. split; [| split; [| split]].
  - unfold GET, execute. intros err.
    destruct (newRequestError P _) as [text |]; cbn.
    + intros [= <-]. eauto.
    + destruct (roundTrip P _ _) as [resp | text]; cbn.
      * destruct (bodyErr resp) as [text |] eqn:E; cbn; [| discriminate].
        intros [= <-]. eauto 7.
      * intros [= <-]. eauto.
  - unfold POST, execute. intros err.
    destruct (marshal P body) as [jsonBody | text]; cbn.
    + destruct (newRequestError P _) as [text |]; cbn.
      * intros [= <-]. eauto 7.
      * destruct (roundTrip P _ _) as [resp | text] eqn:R; cbn.
        -- destruct (bodyErr resp) as [text |] eqn:E; cbn; [| discriminate].
           intros [= <-]. exists text. split; [reflexivity |].
           right. exists jsonBody. split; [reflexivity |]. right. right. eauto.
        -- intros [= <-]. exists text. split; [reflexivity |].
           right. exists jsonBody. split; [reflexivity |]. right. left. exact R.
    + intros [= <-]. eauto.
  - intros resp Hurl Hdo Hread. unfold GET, execute.
    rewrite Hurl, Hdo, Hread. reflexivity.
  - intros jsonBody resp Hjson Hurl Hdo Hread. unfold POST, execute.
    rewrite Hjson, Hurl, Hdo, Hread. reflexivity.
Qed.

Lemma transport_errors_witness :
  let c := NewClient "secret" in
  let get := getRequest c "/market/nope" ∅ in
  (newRequestError notFound (BaseURL c +:+ "/market/nope") = None ∧
   roundTrip notFound (wire world0) get
     = inl {| StatusCode := 404; bodyData := "{message: Not found}"; bodyErr := None |}) ∧
  GET notFound c "/market/nope" ∅ world0 = (("{message: Not found}", None), sent get world0).
Proof.
  cbv zeta. split; [split; reflexivity |].
  apply (proj1 (proj2 (proj2 (transport_errors notFound (NewClient "secret") "/market/nope"
                                ∅ BodyNil world0)))
           {| StatusCode := 404; bodyData := "{message: Not found}"; bodyErr := None |});
    reflexivity.
Defined.

(** C5, the claim as stated fails for [Client.POST]: a body that
    [json.Marshal] cannot encode, here an amount that is NaN, makes POST
    return an error although the URL parses and no HTTP execution failed:
    no request was made at all. *)
Lemma POST_marshal_error :
  let c := NewClient "secret" in
  let body := BodyValues (<["amount" := VFloat64 f64_NaN]> (<["toIds" := VStrings None]> ∅)) in
  newRequestError strictJSON (BaseURL c +:+ "/managram") = None ∧
  (∀ sentBefore req, ∃ resp, roundTrip strictJSON sentBefore req = inl resp) ∧
  POST strictJSON c "/managram" body world0
    = (("", Some (External "json: unsupported value")), world0).
Proof.
  cbv zeta. split; [reflexivity |]. split; [| vm_compute; reflexivity].
  intros sentBefore req. eexists. reflexivity.
Qed.

(** * Further properties *)

(** ** Past validation *)

Lemma create_not_rejected (P : Platform) (c : Client) (params : gmap string GoValue)
    (w : World) :
  ¬ rejects (MarketService.createMarket P c params) w.
Proof.
  intros (e & Hrun & Hval). revert Hrun.
  unfold MarketService.createMarket, bind, try, POST, execute, decode, throw, ret.
  destruct (marshal P _) as [jsonBody | err].
  - destruct (newRequestError P _).
    + intros [= <-]. discriminate Hval.
    + destruct (roundTrip P _ _) as [resp | err].
      * destruct (bodyErr resp); cbn; [world_grew |].
        destruct (jsonUnmarshal P _ (bodyData resp)); world_grew.
      * world_grew.
  - intros [= <-]. discriminate Hval.
Qed.

Lemma post_only_not_rejected (P : Platform) (c : Client) (endpoint : string) (body : Body)
    (f : string) (w : World) :
  ¬ rejects (let* _ := try (POST P c endpoint body)
                         (fun err => Errorf f [ErrorPOSTFailed; err]) in
             ret tt) w.
Proof.
  intros (e & Hrun & Hval). revert Hrun.
  unfold bind, try, POST, execute, ret.
  destruct (marshal P _) as [jsonBody | err].
  - destruct (newRequestError P _).
    + intros [= <-]. discriminate Hval.
    + destruct (roundTrip P _ _) as [resp | err].
      * destruct (bodyErr resp); cbn; world_grew.
      * world_grew.
  - intros [= <-]. discriminate Hval.
Qed.

(** Runs a method on a world: the monad is unfolded and each check that
    decides the control flow is split into its cases; the transport call
    and what follows it are left as they are. *)
Ltac run :=
  unfold rejects;
  cbv [bind guard reject_if throw ret timeNow isNil];
  repeat match goal with
         | |- context [match ?x with _ => _ end] =>
             lazymatch x with
             | context [match _ with _ => _ end] => fail
             | try _ _ _ => fail
             | MarketService.createMarket _ _ _ _ => fail
             | MarketService.resolveMarket _ _ _ _ _ => fail
             | _ => destruct x eqn:?
             end
         end.

Ltac thrown := eexists; split; [reflexivity | validation].

Ltac past_validation H :=
  exfalso;
  first [ exact (read_not_rejected _ _ _ _ _ _ _ _ H)
        | exact (write_not_rejected _ _ _ _ _ _ _ _ H)
        | exact (create_not_rejected _ _ _ _ H)
        | exact (resolve_reached _ _ _ _ _ H)
        | exact (post_only_not_rejected _ _ _ _ _ _ H) ].

Ltac same_verdict :=
  first [ split; intros _; thrown
        | let H := fresh in split; intros H; past_validation H ].

Ltac enum_rule allowed :=
  let w := fresh "w" in
  let value := fresh "value" in
  let Hv := fresh "Hv" in
  let E := fresh "E" in
  intros w value; split; intros Hv;
  [ destruct (checkOneOf value allowed) eqn:E;
    [ run; thrown | apply checkOneOf_string in E; contradiction ]
  | apply checkOneOf_string in Hv; run; try congruence; same_verdict ].

(** ** Enumerated parameters *)

Section Enumerations.
Variable P : Platform.
Variable c : Client.

Lemma Markets_sort limit order before userID groupID :
  enumValidated MarketService.allowedMarketMarketsSort
    (fun sort => MarketService.Markets P c limit sort order before userID groupID).
Proof.
  unfold MarketService.Markets. enum_rule MarketService.allowedMarketMarketsSort.
Qed.

Lemma Markets_order limit sort before userID groupID :
  enumValidated ["asc"; "desc"]
    (fun order => MarketService.Markets P c limit sort order before userID groupID).
Proof. unfold MarketService.Markets. enum_rule (["asc"; "desc"]). Qed.

Lemma Search_sort term filter contractType topicSlug creatorID limit offset :
  enumValidated MarketService.allowedMarketSearchSort
    (fun sort =>
       MarketService.Search P c term sort filter contractType topicSlug creatorID limit offset).
Proof.
  unfold MarketService.Search. enum_rule MarketService.allowedMarketSearchSort.
Qed.

Lemma Search_filter term sort contractType topicSlug creatorID limit offset :
  enumValidated MarketService.allowedMarketSearchFilter
    (fun filter =>
       MarketService.Search P c term sort filter contractType topicSlug creatorID limit offset).
Proof.
  unfold MarketService.Search. enum_rule MarketService.allowedMarketSearchFilter.
Qed.

Lemma Search_contractType term sort filter topicSlug creatorID limit offset :
  enumValidated MarketService.allowedMarketSearchContractType
    (fun contractType =>
       MarketService.Search P c term sort filter contractType topicSlug creatorID limit offset).
Proof.
  unfold MarketService.Search. enum_rule MarketService.allowedMarketSearchContractType.
Qed.

Lemma Bets_kinds userID username contractID contractSlug limit before after beforeTime
    afterTime order :
  enumValidated ["open-limit"]
    (fun kinds =>
       BetService.Bets P c userID username contractID contractSlug limit before after
         beforeTime afterTime kinds order).
Proof. unfold BetService.Bets. enum_rule (["open-limit"]). Qed.

Lemma Bets_order userID username contractID contractSlug limit before after beforeTime
    afterTime kinds :
  enumValidated ["asc"; "desc"]
    (fun order =>
       BetService.Bets P c userID username contractID contractSlug limit before after
         beforeTime afterTime kinds order).
Proof. unfold BetService.Bets. enum_rule (["asc"; "desc"]). Qed.

Lemma Create_outcome amount contractID limitProb expiresAt dryRun :
  enumValidated ["YES"; "NO"]
    (fun outcome =>
       BetService.Create P c amount contractID outcome limitProb expiresAt dryRun).
Proof. unfold BetService.Create. enum_rule (["YES"; "NO"]). Qed.

Lemma Sell_outcome id shares answerID :
  enumValidated ["YES"; "NO"]
    (fun outcome => MarketService.Sell P c id outcome shares answerID).
Proof. unfold MarketService.Sell. enum_rule (["YES"; "NO"]). Qed.

Lemma CreateBinary_visibility question initialProb description closeTime extraLiquidity :
  enumValidated ["public"; "unlisted"]
    (fun visibility =>
       MarketService.CreateBinary P c question initialProb description closeTime visibility
         extraLiquidity).
Proof.
  unfold MarketService.CreateBinary, MarketService.closeTimeAndVisibility.
  enum_rule (["public"; "unlisted"]).
Qed.

Lemma CreatePseudoNumeric_visibility question min max initialValue isLogScale description
    closeTime extraLiquidity :
  enumValidated ["public"; "unlisted"]
    (fun visibility =>
       MarketService.CreatePseudoNumeric P c question min max initialValue isLogScale
         description closeTime visibility extraLiquidity).
Proof.
  unfold MarketService.CreatePseudoNumeric, MarketService.closeTimeAndVisibility.
  enum_rule (["public"; "unlisted"]).
Qed.

Lemma CreatePoll_visibility question answers description closeTime :
  enumValidated ["public"; "unlisted"]
    (fun visibility =>
       MarketService.CreatePoll P c question answers description closeTime visibility).
Proof.
  unfold MarketService.CreatePoll, MarketService.closeTimeAndVisibility.
  enum_rule (["public"; "unlisted"]).
Qed.

Lemma CreateBountiedQuestion_visibility question totalBounty description closeTime :
  enumValidated ["public"; "unlisted"]
    (fun visibility =>
       MarketService.CreateBountiedQuestion P c question totalBounty description closeTime
         visibility).
Proof.
  unfold MarketService.CreateBountiedQuestion, MarketService.closeTimeAndVisibility.
  enum_rule (["public"; "unlisted"]).
Qed.

End Enumerations.

(** X1. On strings [checkOneOf] returns nil exactly for the members of the
    allowed list; in particular it fails for every value when the list is
    empty, and the error it returns is a validation error. *)
Theorem checkOneOf_membership (value : string) (allowed : list string) :
  (checkOneOf value allowed = None ↔ In value allowed) ∧
  checkOneOf value [] ≠ None ∧
  (∀ e, checkOneOf value allowed = Some e → validationError e = true).
Proof.
  split; [apply checkOneOf_string |]. split; [discriminate |].
  intros e. apply checkOneOf_error.
Qed.

Lemma checkOneOf_membership_witness :
  In "desc" ["asc"; "desc"] ∧ checkOneOf "desc" ["asc"; "desc"] = None.
Proof.
  assert (H : In "desc" ["asc"; "desc"]) by (simpl; auto).
  split; [exact H |].
  exact (proj2 (proj1 (checkOneOf_membership "desc" ["asc"; "desc"])) H).
Defined.

(** X2. The enumerated parameters of the read methods are validated:
    [sort] and [order] of Markets, [sort], [filter] and [contractType] of
    Search, [kinds] and [order] of Bets. A value outside the allowed list
    is rejected before any request; a value inside is never a reason to
    reject. *)
Theorem read_enumerations (P : Platform) (c : Client) :
  (∀ limit order before userID groupID,
     enumValidated MarketService.allowedMarketMarketsSort
       (fun sort => MarketService.Markets P c limit sort order before userID groupID)) ∧
  (∀ limit sort before userID groupID,
     enumValidated ["asc"; "desc"]
       (fun order => MarketService.Markets P c limit sort order before userID groupID)) ∧
  (∀ term filter contractType topicSlug creatorID limit offset,
     enumValidated MarketService.allowedMarketSearchSort
       (fun sort =>
          MarketService.Search P c term sort filter contractType topicSlug creatorID
            limit offset)) ∧
  (∀ term sort contractType topicSlug creatorID limit offset,
     enumValidated MarketService.allowedMarketSearchFilter
       (fun filter =>
          MarketService.Search P c term sort filter contractType topicSlug creatorID
            limit offset)) ∧
  (∀ term sort filter topicSlug creatorID limit offset,
     enumValidated MarketService.allowedMarketSearchContractType
       (fun contractType =>
          MarketService.Search P c term sort filter contractType topicSlug creatorID
            limit offset)) ∧
  (∀ userID username contractID contractSlug limit before after beforeTime afterTime order,
     enumValidated ["open-limit"]
       (fun kinds =>
          BetService.Bets P c userID username contractID contractSlug limit before after
            beforeTime afterTime kinds order)) ∧
  (∀ userID username contractID contractSlug limit before after beforeTime afterTime kinds,
     enumValidated ["asc"; "desc"]
       (fun order =>
          BetService.Bets P c userID username contractID contractSlug limit before after
            beforeTime afterTime kinds order)).
Proof.
  split; [intros; apply Markets_sort |].
  split; [intros; apply Markets_order |].
  split; [intros; apply Search_sort |].
  split; [intros; apply Search_filter |].
  split; [intros; apply Search_contractType |].
  split; [intros; apply Bets_kinds | intros; apply Bets_order].
Qed.

(** X3. The optional enumerated parameters of the write methods are
    validated: [outcome] of BetService.Create and of Sell against "YES"
    and "NO", [visibility] of the four Create methods of the market service
    against "public" and "unlisted". *)
Theorem write_enumerations (P : Platform) (c : Client) :
  (∀ amount contractID limitProb expiresAt dryRun,
     enumValidated ["YES"; "NO"]
       (fun outcome =>
          BetService.Create P c amount contractID outcome limitProb expiresAt dryRun)) ∧
  (∀ id shares answerID,
     enumValidated ["YES"; "NO"]
       (fun outcome => MarketService.Sell P c id outcome shares answerID)) ∧
  (∀ question initialProb description closeTime extraLiquidity,
     enumValidated ["public"; "unlisted"]
       (fun visibility =>
          MarketService.CreateBinary P c question initialProb description closeTime
            visibility extraLiquidity)) ∧
  (∀ question min max initialValue isLogScale description closeTime extraLiquidity,
     enumValidated ["public"; "unlisted"]
       (fun visibility =>
          MarketService.CreatePseudoNumeric P c question min max initialValue isLogScale
            description closeTime visibility extraLiquidity)) ∧
  (∀ question answers description closeTime,
     enumValidated ["public"; "unlisted"]
       (fun visibility =>
          MarketService.CreatePoll P c question answers description closeTime visibility)) ∧
  (∀ question totalBounty description closeTime,
     enumValidated ["public"; "unlisted"]
       (fun visibility =>
          MarketService.CreateBountiedQuestion P c question totalBounty description
            closeTime visibility)).
Proof.
  split; [intros; apply Create_outcome |].
  split; [intros; apply Sell_outcome |].
  split; [intros; apply CreateBinary_visibility |].
  split; [intros; apply CreatePseudoNumeric_visibility |].
  split; [intros; apply CreatePoll_visibility | intros; apply CreateBountiedQuestion_visibility].
Qed.

(** X4. ResolveBinary rejects, before any request, every outcome that is
    not "YES", "NO", "MKT" or "CANCEL", whatever [probabilityInt] is; with
    one of the four and no [probabilityInt] it is past validation and the
    resolve request that is sent has a body holding the outcome alone. *)
Theorem ResolveBinary_outcome (P : Platform) (c : Client) (id outcome : string)
    (probabilityInt : option int) (w : World) :
  (¬ In outcome ["YES"; "NO"; "MKT"; "CANCEL"] →
     rejects (MarketService.ResolveBinary P c id outcome probabilityInt) w) ∧
  (In outcome ["YES"; "NO"; "MKT"; "CANCEL"] →
     MarketService.ResolveBinary P c id outcome None w
     = MarketService.resolveMarket P c id (<["outcome" := VString outcome]> ∅) w ∧
     ¬ rejects (MarketService.ResolveBinary P c id outcome None) w ∧
     sends P c (MarketService.ResolveBinary P c id outcome None)
       ("/market/" +:+ PathEscape P id +:+ "/resolve")
       (BodyValues (<["outcome" := VString outcome]> ∅)) w).
Proof.
  split; intros Hin.
  - unfold MarketService.ResolveBinary.
    destruct (checkOneOf outcome ["YES"; "NO"; "MKT"; "CANCEL"]) eqn:E.
    + run; thrown.
    + apply checkOneOf_string in E. contradiction.
  - apply checkOneOf_string in Hin.
    assert (Heq : MarketService.ResolveBinary P c id outcome None w
                  = MarketService.resolveMarket P c id (<["outcome" := VString outcome]> ∅) w)
      by (unfold MarketService.ResolveBinary; unfold bind at 1; rewrite Hin; reflexivity).
    split; [exact Heq |]. split.
    + intros (e & Hrun & Hval). rewrite Heq in Hrun.
      eapply resolve_reached. exists e. split; eassumption.
    + intros jsonBody Hjson Hurl. rewrite Heq. apply resolveMarket_sends; assumption.
Qed.

Lemma ResolveBinary_outcome_witness :
  (¬ In "MAYBE" ["YES"; "NO"; "MKT"; "CANCEL"] ∧ In "YES" ["YES"; "NO"; "MKT"; "CANCEL"]) ∧
  rejects (MarketService.ResolveBinary plain (NewClient "") "m" "MAYBE" (Some 50)) world0 ∧
  snd (MarketService.ResolveBinary plain (NewClient "") "m" "YES" None world0)
  = sent (postRequest (NewClient "") "/market/m/resolve" "outcome=YES;") world0.
Proof.
  assert (Hout : ¬ In "MAYBE" ["YES"; "NO"; "MKT"; "CANCEL"])
    by (simpl; intros [H | [H | [H | [H | []]]]]; discriminate H).
  assert (Hin : In "YES" ["YES"; "NO"; "MKT"; "CANCEL"]) by (simpl; auto).
  split; [exact (conj Hout Hin) |]. split.
  - exact (proj1 (ResolveBinary_outcome plain (NewClient "") "m" "MAYBE" (Some 50) world0)
             Hout).
  - apply (proj2 (proj2 (proj2 (ResolveBinary_outcome plain (NewClient "") "m" "YES" None
                                  world0) Hin)));
      reflexivity.
Defined.

(** X5. ResolveNumeric accepts no outcome but "CANCEL"; it checks
    [probabilityInt] against [0, 100] only when [value] is supplied too:
    without a [value] every [probabilityInt] is past validation and is in
    the body of the resolve request that is sent. *)
Theorem ResolveNumeric_checks (P : Platform) (c : Client) (id : string) (w : World) :
  (∀ outcome value probabilityInt,
     outcome ≠ "CANCEL" →
     rejects (MarketService.ResolveNumeric P c id outcome value probabilityInt) w) ∧
  (∀ value p,
     ¬ (0 ≤ p ≤ 100) →
     rejects (MarketService.ResolveNumeric P c id "CANCEL" (Some value) (Some p)) w) ∧
  (∀ p,
     MarketService.ResolveNumeric P c id "CANCEL" None (Some p) w
     = MarketService.resolveMarket P c id
         (<["probabilityInt" := VInt p]> (<["outcome" := VString "CANCEL"]> ∅)) w ∧
     ¬ rejects (MarketService.ResolveNumeric P c id "CANCEL" None (Some p)) w ∧
     sends P c (MarketService.ResolveNumeric P c id "CANCEL" None (Some p))
       ("/market/" +:+ PathEscape P id +:+ "/resolve")
       (BodyValues (<["probabilityInt" := VInt p]> (<["outcome" := VString "CANCEL"]> ∅)))
       w).
Proof.
  split; [| split].
  - intros outcome value probabilityInt Hne. unfold MarketService.ResolveNumeric.
    destruct (checkOneOf outcome ["CANCEL"]) eqn:E.
    + run; thrown.
    + apply checkOneOf_string in E. destruct E as [E | []]. congruence.
  - intros value p Hp. unfold MarketService.ResolveNumeric.
    run; try thrown.
    match goal with
    | H : checkInRange p 0 100 = None |- _ => apply checkInRange_int in H; contradiction
    end.
  - intros p.
    assert (Heq : MarketService.ResolveNumeric P c id "CANCEL" None (Some p) w
                  = MarketService.resolveMarket P c id
                      (<["probabilityInt" := VInt p]> (<["outcome" := VString "CANCEL"]> ∅)) w)
      by reflexivity.
    split; [exact Heq |]. split.
    + intros (e & Hrun & Hval). rewrite Heq in Hrun.
      eapply resolve_reached. exists e. split; eassumption.
    + intros jsonBody Hjson Hurl. rewrite Heq. apply resolveMarket_sends; assumption.
Qed.

Lemma ResolveNumeric_checks_witness :
  ("YES" ≠ "CANCEL" ∧ ¬ (0 ≤ 101 ≤ 100)) ∧
  rejects (MarketService.ResolveNumeric plain (NewClient "") "m" "YES" None None) world0 ∧
  rejects (MarketService.ResolveNumeric plain (NewClient "") "m" "CANCEL"
             (Some f64_one) (Some 101)) world0 ∧
  snd (MarketService.ResolveNumeric plain (NewClient "") "m" "CANCEL" None (Some 101) world0)
  = sent (postRequest (NewClient "") "/market/m/resolve" "outcome=CANCEL;probabilityInt=101;")
      world0.
Proof.
  split; [split; [discriminate | lia] |]. split; [| split].
  - apply (proj1 (ResolveNumeric_checks plain (NewClient "") "m" world0)). discriminate.
  - apply (proj1 (proj2 (ResolveNumeric_checks plain (NewClient "") "m" world0))). lia.
  - apply (proj2 (proj2 (proj2 (proj2 (ResolveNumeric_checks plain (NewClient "") "m" world0))
                           101)));
      reflexivity.
Defined.

(** ** Numeric checks *)

(** X6. On [float64], [checkInRange] never rejects NaN, whatever the
    bounds: both comparisons are false. So BetService.Create does not
    reject a [limitProb] that is NaN. *)
Theorem checkInRange_NaN (P : Platform) (c : Client) (amount : float64)
    (contractID : string) (dryRun : option bool) (w : World) :
  (∀ min max : float64, checkInRange f64_NaN min max = None) ∧
  ¬ rejects (BetService.Create P c amount contractID None (Some f64_NaN) None dryRun) w.
Proof.
  split.
  - intros min max. unfold checkInRange, go_lt, float64_Ordered, SFltb.
    destruct min, max; reflexivity.
  - unfold BetService.Create. intros H. revert H.
    run;
      first [ match goal with
              | E : checkInRange _ _ _ = Some _ |- _ => vm_compute in E; discriminate E
              end
            | let H := fresh in intros H; past_validation H ].
Qed.

(** X7. An [int] range whose lower bound is above its upper bound accepts
    nothing. So CreatePseudoNumeric rejects every [initialValue] when
    [max <= min + 1], there being no integer strictly between. *)
Theorem CreatePseudoNumeric_empty_range (P : Platform) (c : Client) (question : string)
    (min max initialValue : int) (isLogScale : bool) (description : option string)
    (closeTime : option Time) (visibility : option string) (extraLiquidity : option int)
    (w : World) :
  MinInt ≤ min < MaxInt →
  MinInt < max ≤ MaxInt →
  max ≤ min + 1 →
  (∀ value lo hi : int, hi < lo → checkInRange value lo hi ≠ None) ∧
  rejects (MarketService.CreatePseudoNumeric P c question min max initialValue isLogScale
             description closeTime visibility extraLiquidity) w.
Proof.
  intros Hmin Hmax Hnarrow. split.
  - intros value lo hi Hlt Hnone. apply checkInRange_int in Hnone. lia.
  - unfold MarketService.CreatePseudoNumeric.
    destruct (checkInRange initialValue (int_add min 1) (int_sub max 1)) eqn:E.
    + run; thrown.
    + apply checkInRange_int in E. unfold int_add, int_sub in E.
      rewrite !wrap64_id in E by lia. lia.
Qed.

Lemma CreatePseudoNumeric_empty_range_witness :
  (MinInt ≤ 5 < MaxInt ∧ MinInt < 6 ≤ MaxInt ∧ 6 ≤ 5 + 1) ∧
  rejects (MarketService.CreatePseudoNumeric loopback (NewClient "") "q" 5 6 5 false
             None None None None) world0.
Proof.
  assert (H5 : MinInt ≤ 5 < MaxInt) by (unfold MinInt, MaxInt; lia).
  assert (H6 : MinInt < 6 ≤ MaxInt) by (unfold MinInt, MaxInt; lia).
  assert (Hn : 6 ≤ 5 + 1) by lia.
  split; [exact (conj H5 (conj H6 Hn)) |].
  exact (proj2 (CreatePseudoNumeric_empty_range loopback (NewClient "") "q" 5 6 5 false
                  None None None None world0 H5 H6 Hn)).
Defined.

(** X8. CreateBinary rejects an [initialProb] outside [1, 99] before any
    request, whatever the other arguments; with one inside, the optional
    parameters being absent, it is past validation and the create request
    that is sent has a body holding "outcomeType" "BINARY", the question
    and the initial probability. *)
Theorem CreateBinary_initialProb (P : Platform) (c : Client) (question : string)
    (initialProb : int) (w : World) :
  (∀ description closeTime visibility extraLiquidity,
     ¬ (1 ≤ initialProb ≤ 99) →
     rejects (MarketService.CreateBinary P c question initialProb description closeTime
                visibility extraLiquidity) w) ∧
  (1 ≤ initialProb ≤ 99 →
     MarketService.CreateBinary P c question initialProb None None None None w
     = MarketService.createMarket P c
         (<["initialProb" := VInt initialProb]>
            (<["question" := VString question]>
               (<["outcomeType" := VString "BINARY"]> ∅))) w ∧
     ¬ rejects (MarketService.CreateBinary P c question initialProb None None None None) w ∧
     sends P c (MarketService.CreateBinary P c question initialProb None None None None)
       "/market"
       (BodyValues (<["initialProb" := VInt initialProb]>
                      (<["question" := VString question]>
                         (<["outcomeType" := VString "BINARY"]> ∅)))) w).
Proof.
  split.
  - intros description closeTime visibility extraLiquidity Hout.
    unfold MarketService.CreateBinary.
    destruct (checkInRange initialProb 1 99) eqn:E.
    + run; thrown.
    + apply checkInRange_int in E. contradiction.
  - intros Hin. apply checkInRange_int in Hin.
    assert (Heq : MarketService.CreateBinary P c question initialProb None None None None w
                  = MarketService.createMarket P c
                      (<["initialProb" := VInt initialProb]>
                         (<["question" := VString question]>
                            (<["outcomeType" := VString "BINARY"]> ∅))) w)
      by (unfold MarketService.CreateBinary; unfold bind at 1; rewrite Hin; reflexivity).
    split; [exact Heq |]. split.
    + intros (e & Hrun & Hval). rewrite Heq in Hrun.
      eapply create_not_rejected. exists e. split; eassumption.
    + intros jsonBody Hjson Hurl. rewrite Heq. apply createMarket_sends; assumption.
Qed.

Lemma CreateBinary_initialProb_witness :
  (¬ (1 ≤ 0 ≤ 99) ∧ 1 ≤ 99 ≤ 99) ∧
  rejects (MarketService.CreateBinary plain (NewClient "") "q" 0 None None None None)
    world0 ∧
  snd (MarketService.CreateBinary plain (NewClient "") "q" 99 None None None None world0)
  = sent (postRequest (NewClient "") "/market" "outcomeType=BINARY;initialProb=99;question=q;")
      world0.
Proof.
  split; [lia |]. split.
  - apply (proj1 (CreateBinary_initialProb plain (NewClient "") "q" 0 world0)). lia.
  - apply (proj2 (proj2 (proj2 (CreateBinary_initialProb plain (NewClient "") "q" 99 world0)
                           ltac:(lia))));
      reflexivity.
Defined.

(** X9. CreatePoll rejects fewer than two answers before any request, a
    nil slice included; with two or more, the optional parameters being
    absent, it is past validation and the create request that is sent has a
    body holding "outcomeType" "POLL", the question and the answers. *)
Theorem CreatePoll_answers (P : Platform) (c : Client) (question : string)
    (answers : slice string) (w : World) :
  (∀ description closeTime visibility,
     len answers < 2 →
     rejects (MarketService.CreatePoll P c question answers description closeTime
                visibility) w) ∧
  (2 ≤ len answers →
     MarketService.CreatePoll P c question answers None None None w
     = MarketService.createMarket P c
         (<["answers" := VStrings answers]>
            (<["question" := VString question]>
               (<["outcomeType" := VString "POLL"]> ∅))) w ∧
     ¬ rejects (MarketService.CreatePoll P c question answers None None None) w ∧
     sends P c (MarketService.CreatePoll P c question answers None None None) "/market"
       (BodyValues (<["answers" := VStrings answers]>
                      (<["question" := VString question]>
                         (<["outcomeType" := VString "POLL"]> ∅)))) w).
Proof.
  split.
  - intros description closeTime visibility Hfew. apply Z.ltb_lt in Hfew.
    unfold MarketService.CreatePoll. rewrite Hfew. run; thrown.
  - intros Hmany. apply Z.ltb_ge in Hmany.
    assert (Heq : MarketService.CreatePoll P c question answers None None None w
                  = MarketService.createMarket P c
                      (<["answers" := VStrings answers]>
                         (<["question" := VString question]>
                            (<["outcomeType" := VString "POLL"]> ∅))) w)
      by (unfold MarketService.CreatePoll; rewrite Hmany; reflexivity).
    split; [exact Heq |]. split.
    + intros (e & Hrun & Hval). rewrite Heq in Hrun.
      eapply create_not_rejected. exists e. split; eassumption.
    + intros jsonBody Hjson Hurl. rewrite Heq. apply createMarket_sends; assumption.
Qed.

Lemma CreatePoll_answers_witness :
  (len (@None (list string)) < 2 ∧ 2 ≤ len (Some ["a"; "b"])) ∧
  rejects (MarketService.CreatePoll plain (NewClient "") "q" None None None None) world0 ∧
  snd (MarketService.CreatePoll plain (NewClient "") "q" (Some ["a"; "b"]) None None None
         world0)
  = sent (postRequest (NewClient "") "/market" "outcomeType=POLL;question=q;answers=a,b;")
      world0.
Proof.
  split; [split; [reflexivity | discriminate] |]. split.
  - apply (proj1 (CreatePoll_answers plain (NewClient "") "q" None world0)). reflexivity.
  - apply (proj2 (proj2 (proj2 (CreatePoll_answers plain (NewClient "") "q" (Some ["a"; "b"])
                                  world0) ltac:(discriminate))));
      reflexivity.
Defined.



(** X11. Sell rejects [shares] that are zero or negative ([*shares <= 0])
    before any request; shares that are not are never a reason to reject. *)
Theorem Sell_shares (P : Platform) (c : Client) (id : string) (outcome : option string)
    (shares : float64) (answerID : option string) (w : World) :
  (SFleb shares f64_zero = true →
     rejects (MarketService.Sell P c id outcome (Some shares) answerID) w) ∧
  (SFleb shares f64_zero = false →
     (rejects (MarketService.Sell P c id outcome (Some shares) answerID) w
      ↔ rejects (MarketService.Sell P c id outcome None answerID) w)).
Proof.
  split; intros Hs; unfold MarketService.Sell; rewrite Hs.
  - run; thrown.
  - run; same_verdict.
Qed.

Lemma Sell_shares_witness :
  SFleb f64_zero f64_zero = true ∧
  rejects (MarketService.Sell loopback (NewClient "") "m" (Some "YES") (Some f64_zero) None)
    world0.
Proof.
  split; [reflexivity |].
  apply (proj1 (Sell_shares loopback (NewClient "") "m" (Some "YES") f64_zero None world0)).
  reflexivity.
Defined.

(** ** Close times *)

(** X12. A [closeTime] before the current time is rejected before any
    request by the four Create methods of the market service and by Close;
    Close does not reject a [closeTime] that is the current time or later. *)
Theorem closeTime_in_the_past (P : Platform) (c : Client) (closeTime : Time) (w : World) :
  (closeTime < clock w →
     (∀ question initialProb description visibility extraLiquidity,
        rejects (MarketService.CreateBinary P c question initialProb description
                   (Some closeTime) visibility extraLiquidity) w) ∧
     (∀ question min max initialValue isLogScale description visibility extraLiquidity,
        rejects (MarketService.CreatePseudoNumeric P c question min max initialValue
                   isLogScale description (Some closeTime) visibility extraLiquidity) w) ∧
     (∀ question answers description visibility,
        rejects (MarketService.CreatePoll P c question answers description
                   (Some closeTime) visibility) w) ∧
     (∀ question totalBounty description visibility,
        rejects (MarketService.CreateBountiedQuestion P c question totalBounty description
                   (Some closeTime) visibility) w) ∧
     (∀ id, rejects (MarketService.Close P c id (Some closeTime)) w)) ∧
  (clock w ≤ closeTime →
     ∀ id, ¬ rejects (MarketService.Close P c id (Some closeTime)) w).
Proof.
  split.
  - intros Hpast.
    assert (Hafter : After (clock w) closeTime = true)
      by (unfold After; apply Z.ltb_lt; exact Hpast).
    repeat split; intros;
      unfold MarketService.CreateBinary, MarketService.CreatePseudoNumeric,
        MarketService.CreatePoll, MarketService.CreateBountiedQuestion,
        MarketService.Close, MarketService.closeTimeAndVisibility;
      run; first [ congruence | thrown ].
  - intros Hfuture id.
    assert (Hafter : After (clock w) closeTime = false)
      by (unfold After; apply Z.ltb_ge; exact Hfuture).
    unfold MarketService.Close. intros H. revert H.
    run; first [ congruence | let H := fresh in intros H; past_validation H ].
Qed.

Lemma closeTime_in_the_past_witness :
  (clock world0 - 1 < clock world0 ∧ clock world0 ≤ clock world0) ∧
  rejects (MarketService.CreateBinary loopback (NewClient "") "q" 50 None
             (Some (clock world0 - 1)) None None) world0 ∧
  ¬ rejects (MarketService.Close loopback (NewClient "") "m" (Some (clock world0))) world0.
Proof.
  assert (Hp : clock world0 - 1 < clock world0) by lia.
  assert (Hn : clock world0 ≤ clock world0) by lia.
  split; [exact (conj Hp Hn) |]. split.
  - exact (proj1 (proj1 (closeTime_in_the_past loopback (NewClient "") (clock world0 - 1)
                           world0) Hp) "q" 50 None None None).
  - exact (proj2 (closeTime_in_the_past loopback (NewClient "") (clock world0) world0) Hn "m").
Defined.

(** ** Stages of failure *)

Lemma read_stages (P : Platform) (c : Client) (t : Target) (endpoint : string)
    (params : gmap string string) (f g : string) :
  errorStages ErrorGETFailed
    (let* result := try (GET P c endpoint params)
                      (fun err => Errorf f [ErrorGETFailed; err]) in
     decode P t result (fun err => Errorf g [ErrorFailedToParseResponse; err])).
Proof.
  intros w w' e.
  unfold bind, try, GET, execute, decode, throw, ret.
  destruct (newRequestError P _).
  - intros [= <- <-]. right. left. repeat split.
  - destruct (roundTrip P _ _) as [resp | err].
    + destruct (bodyErr resp); cbn.
      * intros [= <- <-]. right. left. repeat split.
      * destruct (jsonUnmarshal P t (bodyData resp)); [| discriminate].
        intros [= <- <-]. right. right. repeat split. eexists. reflexivity.
    + intros [= <- <-]. right. left. repeat split.
Qed.

Lemma write_stages (P : Platform) (c : Client) (t : Target) (endpoint : string)
    (body : Body) (f g : string) :
  errorStages ErrorPOSTFailed
    (let* result := try (POST P c endpoint body)
                      (fun err => Errorf f [ErrorPOSTFailed; err]) in
     decode P t result (fun err => Errorf g [ErrorFailedToParseResponse; err])).
Proof.
  intros w w' e.
  unfold bind, try, POST, execute, decode, throw, ret.
  destruct (marshal P body) as [jsonBody | err].
  - destruct (newRequestError P _).
    + intros [= <- <-]. right. left. repeat split.
    + destruct (roundTrip P _ _) as [resp | err].
      * destruct (bodyErr resp); cbn.
        -- intros [= <- <-]. right. left. repeat split.
        -- destruct (jsonUnmarshal P t (bodyData resp)); [| discriminate].
           intros [= <- <-]. right. right. repeat split. eexists. reflexivity.
      * intros [= <- <-]. right. left. repeat split.
  - intros [= <- <-]. right. left. repeat split.
Qed.

Lemma post_only_stages (P : Platform) (c : Client) (endpoint : string) (body : Body)
    (f : string) :
  errorStages ErrorPOSTFailed
    (let* _ := try (POST P c endpoint body)
                 (fun err => Errorf f [ErrorPOSTFailed; err]) in
     ret tt).
Proof.
  intros w w' e.
  unfold bind, try, POST, execute, ret.
  destruct (marshal P body) as [jsonBody | err].
  - destruct (newRequestError P _).
    + intros [= <- <-]. right. left. repeat split.
    + destruct (roundTrip P _ _) as [resp | err].
      * destruct (bodyErr resp); cbn; [| discriminate].
        intros [= <- <-]. right. left. repeat split.
      * intros [= <- <-]. right. left. repeat split.
  - intros [= <- <-]. right. left. repeat split.
Qed.

(** The proof of [errorStages] for a method whose definition is unfolded. *)
Ltac stages_rule :=
  let w := fresh "w" in
  let w' := fresh "w'" in
  let e := fresh "e" in
  intros w w' e; run;
  first [ exact (read_stages _ _ _ _ _ _ _ w w' e)
        | exact (write_stages _ _ _ _ _ _ _ w w' e)
        | exact (post_only_stages _ _ _ _ _ w w' e)
        | intros [= <- <-]; left; split; [validation | reflexivity] ].

(** X13. The errors of the read methods come in three stages, told apart
    by the sentinel they wrap: a validation error wraps none and no request
    was made; a transport error wraps [ErrorGETFailed] and not
    [ErrorFailedToParseResponse]; a decoding error wraps
    [ErrorFailedToParseResponse] and not [ErrorGETFailed], and the request
    was made. *)
Theorem read_error_stages (P : Platform) (c : Client) :
  (∀ limit before, errorStages ErrorGETFailed (UserService.Users P c limit before)) ∧
  (∀ username, errorStages ErrorGETFailed (UserService.User P c username)) ∧
  (∀ username, errorStages ErrorGETFailed (UserService.UserLite P c username)) ∧
  (∀ id, errorStages ErrorGETFailed (UserService.ID P c id)) ∧
  (∀ id, errorStages ErrorGETFailed (UserService.IDLite P c id)) ∧
  errorStages ErrorGETFailed (UserService.Me P c) ∧
  (∀ beforeTime availableToUserID,
     errorStages ErrorGETFailed (GroupService.Groups P c beforeTime availableToUserID)) ∧
  (∀ slug, errorStages ErrorGETFailed (GroupService.Group P c slug)) ∧
  (∀ id, errorStages ErrorGETFailed (GroupService.ID P c id)) ∧
  (∀ toID fromID limit before after,
     errorStages ErrorGETFailed (ManaService.Managrams P c toID fromID limit before after)) ∧
  (∀ contractID contractSlug limit offset userID,
     errorStages ErrorGETFailed
       (CommentService.Comments P c contractID contractSlug limit offset userID)) ∧
  (∀ userID username contractID contractSlug limit before after beforeTime afterTime
     kinds order,
     errorStages ErrorGETFailed
       (BetService.Bets P c userID username contractID contractSlug limit before after
          beforeTime afterTime kinds order)) ∧
  (∀ limit sort order before userID groupID,
     errorStages ErrorGETFailed
       (MarketService.Markets P c limit sort order before userID groupID)) ∧
  (∀ id, errorStages ErrorGETFailed (MarketService.Market P c id)) ∧
  (∀ id, errorStages ErrorGETFailed (MarketService.Positions P c id)) ∧
  (∀ slug, errorStages ErrorGETFailed (MarketService.Slug P c slug)) ∧
  (∀ term sort filter contractType topicSlug creatorID limit offset,
     errorStages ErrorGETFailed
       (MarketService.Search P c term sort filter contractType topicSlug creatorID
          limit offset)).
Proof.
  repeat match goal with |- _ ∧ _ => split end; intros.
  - unfold UserService.Users. stages_rule.
  - apply read_stages.
  - apply read_stages.
  - apply read_stages.
  - apply read_stages.
  - apply read_stages.
  - unfold GroupService.Groups. stages_rule.
  - apply read_stages.
  - apply read_stages.
  - unfold ManaService.Managrams. stages_rule.
  - unfold CommentService.Comments. stages_rule.
  - unfold BetService.Bets. stages_rule.
  - unfold MarketService.Markets. stages_rule.
  - apply read_stages.
  - apply read_stages.
  - apply read_stages.
  - unfold MarketService.Search. stages_rule.
Qed.

(** X14. The same stages for the write methods that wrap the sentinels,
    with [ErrorPOSTFailed] for the transport: BetService.Create, Sell,
    AddLiquidity, AddBounty and AwardBounty, which decode the response, and
    Cancel, Answer, Close, Group, Managram and the three Comment methods,
    which do not and so have no decoding stage. *)
Theorem write_error_stages (P : Platform) (c : Client) :
  (∀ amount contractID outcome limitProb expiresAt dryRun,
     errorStages ErrorPOSTFailed
       (BetService.Create P c amount contractID outcome limitProb expiresAt dryRun)) ∧
  (∀ id outcome shares answerID,
     errorStages ErrorPOSTFailed (MarketService.Sell P c id outcome shares answerID)) ∧
  (∀ id amount, errorStages ErrorPOSTFailed (MarketService.AddLiquidity P c id amount)) ∧
  (∀ id amount, errorStages ErrorPOSTFailed (MarketService.AddBounty P c id amount)) ∧
  (∀ id amount commentID,
     errorStages ErrorPOSTFailed (MarketService.AwardBounty P c id amount commentID)) ∧
  (∀ id, errorStages ErrorPOSTFailed (BetService.Cancel P c id)) ∧
  (∀ id text, errorStages ErrorPOSTFailed (MarketService.Answer P c id text)) ∧
  (∀ id closeTime, errorStages ErrorPOSTFailed (MarketService.Close P c id closeTime)) ∧
  (∀ id groupID remove, errorStages ErrorPOSTFailed (MarketService.Group P c id groupID remove)) ∧
  (∀ toIDs amount message,
     errorStages ErrorPOSTFailed (ManaService.Managram P c toIDs amount message)) ∧
  (∀ id content, errorStages ErrorPOSTFailed (CommentService.Comment P c id content)) ∧
  (∀ id content, errorStages ErrorPOSTFailed (CommentService.CommentHTML P c id content)) ∧
  (∀ id content, errorStages ErrorPOSTFailed (CommentService.CommentMarkdown P c id content)).
Proof.
  repeat match goal with |- _ ∧ _ => split end; intros.
  - unfold BetService.Create. stages_rule.
  - unfold MarketService.Sell. stages_rule.
  - unfold MarketService.AddLiquidity. stages_rule.
  - unfold MarketService.AddBounty. stages_rule.
  - unfold MarketService.AwardBounty. stages_rule.
  - apply post_only_stages.
  - apply post_only_stages.
  - unfold MarketService.Close. stages_rule.
  - unfold MarketService.Group. stages_rule.
  - unfold ManaService.Managram. stages_rule.
  - apply post_only_stages.
  - apply post_only_stages.
  - apply post_only_stages.
Qed.

Lemma checkOneOf_no_sentinel (value : string) (allowed : list string) (e target : error) :
  checkOneOf value allowed = Some e → errorsIs e target = false.
Proof.
  induction allowed as [|a rest IH]; cbn.
  - intros [= <-]. destruct target; reflexivity.
  - destruct (go_eq value a); [discriminate | exact IH].
Qed.

Lemma checkInRange_no_sentinel (value min max : int) (e target : error) :
  checkInRange value min max = Some e → errorsIs e target = false.
Proof.
  unfold checkInRange. destruct (_ || _); intros [= <-]. destruct target; reflexivity.
Qed.

Lemma createMarket_no_sentinel (P : Platform) (c : Client) (params : gmap string GoValue) :
  noSentinel (MarketService.createMarket P c params).
Proof.
  intros w w' e.
  unfold MarketService.createMarket, bind, try, POST, execute, decode, throw, ret.
  destruct (marshal P _) as [jsonBody | err].
  - destruct (newRequestError P _).
    + intros [= <- <-]. repeat split.
    + destruct (roundTrip P _ _) as [resp | err].
      * destruct (bodyErr resp); cbn.
        -- intros [= <- <-]. repeat split.
        -- destruct (jsonUnmarshal P _ (bodyData resp)); [| discriminate].
           intros [= <- <-]. repeat split.
      * intros [= <- <-]. repeat split.
  - intros [= <- <-]. repeat split.
Qed.

Lemma resolveMarket_no_sentinel (P : Platform) (c : Client) (id : string)
    (params : gmap string GoValue) :
  noSentinel (MarketService.resolveMarket P c id params).
Proof.
  intros w w' e.
  unfold MarketService.resolveMarket, bind, try, POST, execute, decode, throw, ret.
  destruct (marshal P _) as [jsonBody | err].
  - destruct (newRequestError P _).
    + intros [= <- <-]. repeat split.
    + destruct (roundTrip P _ _) as [resp | err].
      * destruct (bodyErr resp); cbn.
        -- intros [= <- <-]. repeat split.
        -- destruct (jsonUnmarshal P _ (bodyData resp)); [| discriminate].
           intros [= <- <-]. repeat split.
      * intros [= <- <-]. repeat split.
  - intros [= <- <-]. repeat split.
Qed.

Ltac no_sentinel :=
  cbn [errorsIs sameSentinel existsb orb];
  repeat match goal with
         | H : checkOneOf _ _ = Some ?e |- context [errorsIs ?e ?t] =>
             rewrite (checkOneOf_no_sentinel _ _ e t H)
         | H : checkInRange _ _ _ = Some ?e |- context [errorsIs ?e ?t] =>
             rewrite (checkInRange_no_sentinel _ _ _ e t H)
         end;
  repeat split.

Ltac no_sentinel_rule :=
  let w := fresh "w" in
  let w' := fresh "w'" in
  let e := fresh "e" in
  intros w w' e; run;
  first [ exact (createMarket_no_sentinel _ _ _ w w' e)
        | exact (resolveMarket_no_sentinel _ _ _ _ w w' e)
        | intros [= <- <-]; no_sentinel ].

(** X15. The methods that go through [createMarket] and [resolveMarket]
    wrap no sentinel: no error of the four Create methods and the three
    Resolve methods of the market service is, or wraps, [ErrorGETFailed],
    [ErrorPOSTFailed] or [ErrorFailedToParseResponse], a failed POST and an
    undecodable response included. *)
Theorem market_errors_wrap_no_sentinel (P : Platform) (c : Client) :
  (∀ params, noSentinel (MarketService.createMarket P c params)) ∧
  (∀ id params, noSentinel (MarketService.resolveMarket P c id params)) ∧
  (∀ question initialProb description closeTime visibility extraLiquidity,
     noSentinel (MarketService.CreateBinary P c question initialProb description closeTime
                   visibility extraLiquidity)) ∧
  (∀ question min max initialValue isLogScale description closeTime visibility
     extraLiquidity,
     noSentinel (MarketService.CreatePseudoNumeric P c question min max initialValue
                   isLogScale description closeTime visibility extraLiquidity)) ∧
  (∀ question answers description closeTime visibility,
     noSentinel (MarketService.CreatePoll P c question answers description closeTime
                   visibility)) ∧
  (∀ question totalBounty description closeTime visibility,
     noSentinel (MarketService.CreateBountiedQuestion P c question totalBounty description
                   closeTime visibility)) ∧
  (∀ id outcome probabilityInt,
     noSentinel (MarketService.ResolveBinary P c id outcome probabilityInt)) ∧
  (∀ id outcome resolutions,
     noSentinel (MarketService.ResolveFreeResponse P c id outcome resolutions)) ∧
  (∀ id outcome value probabilityInt,
     noSentinel (MarketService.ResolveNumeric P c id outcome value probabilityInt)).
Proof.
  repeat match goal with |- _ ∧ _ => split end; intros.
  - apply createMarket_no_sentinel.
  - apply resolveMarket_no_sentinel.
  - unfold MarketService.CreateBinary, MarketService.closeTimeAndVisibility. no_sentinel_rule.
  - unfold MarketService.CreatePseudoNumeric, MarketService.closeTimeAndVisibility.
    no_sentinel_rule.
  - unfold MarketService.CreatePoll, MarketService.closeTimeAndVisibility. no_sentinel_rule.
  - unfold MarketService.CreateBountiedQuestion, MarketService.closeTimeAndVisibility.
    no_sentinel_rule.
  - unfold MarketService.ResolveBinary. no_sentinel_rule.
  - unfold MarketService.ResolveFreeResponse. no_sentinel_rule.
  - unfold MarketService.ResolveNumeric. no_sentinel_rule.
Qed.

(** ** Methods without a result *)

Lemma post_only_success (P : Platform) (c : Client) (endpoint : string) (body : Body)
    (f : string) :
  succeedsOnAnyResponse P c
    (let* _ := try (POST P c endpoint body)
                 (fun err => Errorf f [ErrorPOSTFailed; err]) in
     ret tt)
    endpoint body.
Proof.
  intros w jsonBody resp Hjson Hurl Hdo Hread.
  unfold bind, try, POST, execute, ret.
  rewrite Hjson, Hurl, Hdo, Hread. reflexivity.
Qed.

(** X16. The methods without a result value, the three Comment methods,
    Answer and Cancel, never read the response: once the POST got a
    response whose body was read, they return nil whatever the status code
    and the body are, an HTTP 404 with an error body included. *)
Theorem no_result_methods_ignore_response (P : Platform) (c : Client) (id content : string) :
  succeedsOnAnyResponse P c (CommentService.Comment P c id content) "/comment"
    (BodyStrings (<["content" := content]> (<["contractId" := id]> ∅))) ∧
  succeedsOnAnyResponse P c (CommentService.CommentHTML P c id content) "/comment"
    (BodyStrings (<["html" := content]> (<["contractId" := id]> ∅))) ∧
  succeedsOnAnyResponse P c (CommentService.CommentMarkdown P c id content) "/comment"
    (BodyStrings (<["markdown" := content]> (<["contractId" := id]> ∅))) ∧
  succeedsOnAnyResponse P c (MarketService.Answer P c id content)
    ("/market/" +:+ PathEscape P id +:+ "/answer")
    (BodyStrings (<["text" := content]> ∅)) ∧
  succeedsOnAnyResponse P c (BetService.Cancel P c id)
    ("/bet/cancel/" +:+ PathEscape P id) BodyNil.
Proof.
  repeat match goal with |- _ ∧ _ => split end; apply post_only_success.
Qed.

Lemma no_result_methods_ignore_response_witness :
  let c := NewClient "secret" in
  roundTrip notFound (wire world0) (postRequest c "/comment" "{...}")
    = inl {| StatusCode := 404; bodyData := "{message: Not found}"; bodyErr := None |} ∧
  CommentService.Comment notFound c "no-such-market" "hello" world0
    = (Ok tt, sent (postRequest c "/comment" "{...}") world0).
Proof.
  cbv zeta. split; [reflexivity |].
  apply (proj1 (no_result_methods_ignore_response notFound (NewClient "secret")
                  "no-such-market" "hello")
           world0 "{...}"
           {| StatusCode := 404; bodyData := "{message: Not found}"; bodyErr := None |});
    reflexivity.
Defined.

(** ** One request per call *)

(** X17. A call of [GET] or [POST] hands at most one request to the HTTP
    client, and none when the URL does not parse or, for POST, the body
    cannot be encoded; a failed execution is not repeated. The clock is not
    touched. The request has an Authorization header, "Key " followed by
    the key, exactly when the client has a non-empty API key. *)
Theorem one_request_per_call (P : Platform) (c : Client) (endpoint : string)
    (params : gmap string string) (body : Body) (w : World) :
  (match newRequestError P (BaseURL c +:+ endpoint) with
   | Some _ => snd (GET P c endpoint params w) = w
   | None => snd (GET P c endpoint params w) = sent (getRequest c endpoint params) w
   end) ∧
  (match marshal P body, newRequestError P (BaseURL c +:+ endpoint) with
   | inl jsonBody, None =>
       snd (POST P c endpoint body w) = sent (postRequest c endpoint jsonBody) w
   | _, _ => snd (POST P c endpoint body w) = w
   end) ∧
  (∀ value jsonBody,
     (In ("Authorization", value) (header (getRequest c endpoint params))
      ↔ APIKey c ≠ "" ∧ value = "Key " +:+ APIKey c) ∧
     (In ("Authorization", value) (header (postRequest c endpoint jsonBody))
      ↔ APIKey c ≠ "" ∧ value = "Key " +:+ APIKey c)).
Proof.
  split; [| split].
  - unfold GET, execute. destruct (newRequestError P _); [reflexivity |].
    destruct (roundTrip P _ _); reflexivity.
  - unfold POST, execute. destruct (marshal P body); [| reflexivity].
    destruct (newRequestError P _); [reflexivity |].
    destruct (roundTrip P _ _); reflexivity.
  - intros value jsonBody. cbn [header getRequest postRequest]. unfold authorization.
    destruct (String.eqb_spec (APIKey c) "") as [Hempty | Hkey]; cbn [In].
    + split; split.
      * intros [].
      * intros [Hne _]. contradiction.
      * intros [[=] | []].
      * intros [Hne _]. contradiction.
    + split; split.
      * intros [[= <-] | []]. split; [assumption | reflexivity].
      * intros [_ ->]. left. reflexivity.
      * intros [[=] | [[= <-] | []]]. split; [assumption | reflexivity].
      * intros [_ ->]. right. left. reflexivity.
Qed.

(** ** From parameters to the wire *)

Lemma lookup_setIfPresent (key k : string) (p : option string) (params : gmap string string) :
  setIfPresent key p params !! k
  = if decide (key = k) then (match p with Some v => Some v | None => params !! k end)
    else params !! k.
Proof.
  unfold setIfPresent. destruct p as [v |].
  - rewrite lookup_insert. destruct (decide (key = k)); reflexivity.
  - destruct (decide (key = k)); reflexivity.
Qed.

(** A key that a map built by insertions holds is one of the inserted keys. *)
Ltac key_among :=
  repeat (rewrite lookup_insert; case_decide; [subst; cbn; tauto |]);
  rewrite lookup_empty; intros [? [=]].

(** X18. When its [limit] and [offset] pass validation, Comments calls
    [GET] on "/comments" with a query that has, for each of its five
    parameters, the key "contractId", "contractSlug", "limit", "offset" or
    "userId" exactly when the parameter is supplied, the numbers in
    decimal, and no other key: an absent parameter is not sent, a supplied
    zero or empty string is. *)
Theorem Comments_query (P : Platform) (c : Client) (contractID contractSlug : option string)
    (limit offset : option int) (userID : option string) (w : World) :
  (∀ l, limit = Some l → 0 ≤ l ≤ 1000) →
  (∀ o, offset = Some o → 0 ≤ o) →
  ∃ params : gmap string string,
    CommentService.Comments P c contractID contractSlug limit offset userID w
    = (let* result := try (GET P c "/comments" params)
                        (fun err => Errorf "Comment: Comments: %w: %w" [ErrorGETFailed; err]) in
       decode P TComments result
         (fun err => Errorf "Comment: Comments: %w: %w" [ErrorFailedToParseResponse; err])) w ∧
    params !! "contractId" = contractID ∧
    params !! "contractSlug" = contractSlug ∧
    params !! "limit" = sprintf_d <$> limit ∧
    params !! "offset" = sprintf_d <$> offset ∧
    params !! "userId" = userID ∧
    ∀ k, is_Some (params !! k) →
         In k ["contractId"; "contractSlug"; "limit"; "offset"; "userId"].
Proof.
  intros Hlimit Hoffset.
  assert (Hl : ∀ l, limit = Some l → checkInRange l 0 1000 = None)
    by (intros l E; apply checkInRange_int, Hlimit, E).
  assert (Ho : ∀ o, offset = Some o → (o <? 0) = false)
    by (intros o E; apply Z.ltb_ge, Hoffset, E).
  unfold CommentService.Comments.
  destruct limit as [l |], offset as [o |];
    rewrite ?(Hl l eq_refl), ?(Ho o eq_refl);
    destruct contractID, contractSlug, userID;
    (eexists; split; [reflexivity |]);
    (repeat split; try reflexivity);
    intros k; unfold setIfPresent; key_among.
Qed.

Lemma Comments_query_witness :
  ((∀ l, Some 0 = Some l → 0 ≤ l ≤ 1000) ∧ (∀ o : int, None = Some o → 0 ≤ o)) ∧
  ∃ params : gmap string string,
    CommentService.Comments loopback (NewClient "") (Some "") None (Some 0) None None world0
    = (let* result := try (GET loopback (NewClient "") "/comments" params)
                        (fun err => Errorf "Comment: Comments: %w: %w" [ErrorGETFailed; err]) in
       decode loopback TComments result
         (fun err => Errorf "Comment: Comments: %w: %w" [ErrorFailedToParseResponse; err]))
        world0 ∧
    params !! "contractId" = Some "" ∧
    params !! "limit" = Some "0" ∧
    params !! "userId" = None.
Proof.
  assert (Hl : ∀ l, Some 0 = Some l → 0 ≤ l ≤ 1000) by (intros l [= <-]; lia).
  assert (Ho : ∀ o : int, None = Some o → 0 ≤ o) by (intros o [=]).
  split; [exact (conj Hl Ho) |].
  destruct (Comments_query loopback (NewClient "") (Some "") None (Some 0) None None world0
              Hl Ho) as (params & Hrun & Hid & _ & Hlim & _ & Huser & _).
  exists params. repeat split; assumption.
Defined.

Lemma UnixMilli_exact (t : Time) :
  MinInt ≤ t / 1000000 ≤ MaxInt → UnixMilli t = t / 1000000.
Proof. intros Hfit. unfold UnixMilli. apply wrap64_id, Hfit. Qed.

Lemma Create_validated (P : Platform) (c : Client) (amount : float64) (contractID : string)
    (outcome : option string) (limitProb : option float64) (expiresAt : option Time)
    (dryRun : option bool) (w : World) :
  (∀ o, outcome = Some o → In o ["YES"; "NO"]) →
  (∀ p, limitProb = Some p → go_lt p f64_zero = false ∧ go_lt f64_one p = false) →
  (∀ t, expiresAt = Some t → limitProb ≠ None ∧ clock w ≤ t) →
  ∃ body : gmap string string,
    BetService.Create P c amount contractID outcome limitProb expiresAt dryRun w
    = (let* result := try (POST P c "/bet" (BodyStrings body))
                        (fun err => Errorf "Bet: Create: %w: %w" [ErrorPOSTFailed; err]) in
       decode P TBet result
         (fun err => Errorf "Bet: Create: %w: %w" [ErrorFailedToParseResponse; err])) w ∧
    body !! "amount" = Some (sprintf_f P amount) ∧
    body !! "contractId" = Some contractID ∧
    body !! "outcome" = outcome ∧
    body !! "limitProb" = sprintf_f P <$> limitProb ∧
    body !! "expiresAt" = (fun t => sprintf_d (UnixMilli t)) <$> expiresAt ∧
    body !! "dryRun" = (fun b : bool => if b then "true" else "false") <$> dryRun ∧
    ∀ k, is_Some (body !! k) →
         In k ["amount"; "contractId"; "outcome"; "limitProb"; "expiresAt"; "dryRun"].
Proof.
  intros Houtcome Hprob Hexpires.
  assert (Ho : ∀ o, outcome = Some o → checkOneOf o ["YES"; "NO"] = None)
    by (intros o E; apply checkOneOf_string, Houtcome, E).
  assert (Hp : ∀ p, limitProb = Some p → checkInRange p f64_zero f64_one = None).
  { intros p E. destruct (Hprob p E) as [Hlo Hhi].
    unfold checkInRange. rewrite Hlo, Hhi. reflexivity. }
  assert (Ht : ∀ t, expiresAt = Some t → After (clock w) t = false)
    by (intros t E; unfold After; apply Z.ltb_ge, (Hexpires t E)).
  assert (Hn : ∀ t, expiresAt = Some t → isNil limitProb = false)
    by (intros t E; destruct (Hexpires t E) as [Hsome _]; destruct limitProb; [reflexivity | contradiction]).
  unfold BetService.Create.
  destruct outcome as [o |], limitProb as [p |], expiresAt as [t |], dryRun as [[|] |];
    try (discriminate (Hn t eq_refl));
    (eexists; split;
     [ cbv [bind guard reject_if throw ret timeNow isNil];
       rewrite ?(Ho o eq_refl), ?(Hp p eq_refl), ?(Ht t eq_refl); reflexivity |]);
    (repeat split; try reflexivity);
    intros k; key_among.
Qed.

(** X19. When its arguments pass validation, BetService.Create calls
    [POST] on "/bet" with a body of strings, which is what the request
    sent holds: "amount" and "contractId" always, "outcome", "limitProb",
    "expiresAt" and "dryRun" ("true" or "false") exactly when the parameter
    is supplied, and no other key. "expiresAt" is [UnixMilli] in decimal:
    the milliseconds since the epoch whenever they fit an [int64]. *)
Theorem Create_body (P : Platform) (c : Client) (amount : float64) (contractID : string)
    (outcome : option string) (limitProb : option float64) (expiresAt : option Time)
    (dryRun : option bool) (w : World) :
  (∀ o, outcome = Some o → In o ["YES"; "NO"]) →
  (∀ p, limitProb = Some p → go_lt p f64_zero = false ∧ go_lt f64_one p = false) →
  (∀ t, expiresAt = Some t → limitProb ≠ None ∧ clock w ≤ t) →
  ∃ body : gmap string string,
    BetService.Create P c amount contractID outcome limitProb expiresAt dryRun w
    = (let* result := try (POST P c "/bet" (BodyStrings body))
                        (fun err => Errorf "Bet: Create: %w: %w" [ErrorPOSTFailed; err]) in
       decode P TBet result
         (fun err => Errorf "Bet: Create: %w: %w" [ErrorFailedToParseResponse; err])) w ∧
    sends P c (BetService.Create P c amount contractID outcome limitProb expiresAt dryRun)
      "/bet" (BodyStrings body) w ∧
    body !! "amount" = Some (sprintf_f P amount) ∧
    body !! "contractId" = Some contractID ∧
    body !! "outcome" = outcome ∧
    body !! "limitProb" = sprintf_f P <$> limitProb ∧
    body !! "expiresAt" = (fun t => sprintf_d (UnixMilli t)) <$> expiresAt ∧
    (∀ t, expiresAt = Some t → MinInt ≤ t / 1000000 ≤ MaxInt →
          body !! "expiresAt" = Some (sprintf_d (t / 1000000))) ∧
    body !! "dryRun" = (fun b : bool => if b then "true" else "false") <$> dryRun ∧
    ∀ k, is_Some (body !! k) →
         In k ["amount"; "contractId"; "outcome"; "limitProb"; "expiresAt"; "dryRun"].
Proof.
  intros Houtcome Hprob Hexpires.
  destruct (Create_validated P c amount contractID outcome limitProb expiresAt dryRun w
              Houtcome Hprob Hexpires)
    as (body & Hrun & Hamount & Hid & Hout & Hlp & Hexp & Hdry & Hkeys).
  exists body.
  split; [exact Hrun |].
  split.
  { intros jsonBody Hjson Hurl. rewrite Hrun, decoded_world.
    apply POST_sends; assumption. }
  split; [exact Hamount |]. split; [exact Hid |]. split; [exact Hout |].
  split; [exact Hlp |]. split; [exact Hexp |].
  split.
  { intros t -> Hfit. rewrite Hexp. cbn. rewrite (UnixMilli_exact t Hfit). reflexivity. }
  split; [exact Hdry | exact Hkeys].
Qed.

Lemma Create_body_witness :
  ((∀ o, Some "YES" = Some o → In o ["YES"; "NO"]) ∧
   (∀ p, Some f64_half = Some p → go_lt p f64_zero = false ∧ go_lt f64_one p = false) ∧
   (∀ t, Some (clock world0) = Some t → Some f64_half ≠ None ∧ clock world0 ≤ t)) ∧
  ∃ body : gmap string string,
    BetService.Create plain (NewClient "") f64_one "c" (Some "YES") (Some f64_half)
      (Some (clock world0)) (Some false) world0
    = (let* result := try (POST plain (NewClient "") "/bet" (BodyStrings body))
                        (fun err => Errorf "Bet: Create: %w: %w" [ErrorPOSTFailed; err]) in
       decode plain TBet result
         (fun err => Errorf "Bet: Create: %w: %w" [ErrorFailedToParseResponse; err])) world0 ∧
    body !! "expiresAt" = Some "1700000000000" ∧
    body !! "dryRun" = Some "false".
Proof.
  assert (Ho : ∀ o, Some "YES" = Some o → In o ["YES"; "NO"])
    by (intros o [= <-]; simpl; auto).
  assert (Hp : ∀ p, Some f64_half = Some p →
                    go_lt p f64_zero = false ∧ go_lt f64_one p = false)
    by (intros p [= <-]; split; reflexivity).
  assert (Ht : ∀ t, Some (clock world0) = Some t → Some f64_half ≠ None ∧ clock world0 ≤ t)
    by (intros t [= <-]; split; [discriminate | cbn; lia]).
  split; [exact (conj Ho (conj Hp Ht)) |].
  destruct (Create_body plain (NewClient "") f64_one "c" (Some "YES") (Some f64_half)
              (Some (clock world0)) (Some false) world0 Ho Hp Ht)
    as (body & Hrun & _ & _ & _ & _ & _ & Hexp & _ & Hdry & _).
  exists body. repeat split; assumption.
Defined.

(** X20. With the outcome "CANCEL", ResolveFreeResponse neither checks nor
    sends the [resolutions]: whatever the percentages are, the call is past
    validation and the resolve request that is sent has a body holding the
    outcome alone. *)
Theorem ResolveFreeResponse_CANCEL (P : Platform) (c : Client) (id : string)
    (resolutions : slice Resolution) (w : World) :
  MarketService.ResolveFreeResponse P c id "CANCEL" resolutions w
  = MarketService.resolveMarket P c id (<["outcome" := VString "CANCEL"]> ∅) w ∧
  ¬ rejects (MarketService.ResolveFreeResponse P c id "CANCEL" resolutions) w ∧
  sends P c (MarketService.ResolveFreeResponse P c id "CANCEL" resolutions)
    ("/market/" +:+ PathEscape P id +:+ "/resolve")
    (BodyValues (<["outcome" := VString "CANCEL"]> ∅)) w.
Proof.
  assert (Heq : MarketService.ResolveFreeResponse P c id "CANCEL" resolutions w
                = MarketService.resolveMarket P c id (<["outcome" := VString "CANCEL"]> ∅) w)
    by reflexivity.
  split; [exact Heq |]. split.
  - intros (e & Hrun & Hval). rewrite Heq in Hrun.
    eapply resolve_reached. exists e. split; eassumption.
  - intros jsonBody Hjson Hurl. rewrite Heq. apply resolveMarket_sends; assumption.
Qed.

Lemma ResolveFreeResponse_CANCEL_witness :
  snd (MarketService.ResolveFreeResponse plain (NewClient "") "m" "CANCEL"
         (Some [ {| Answer := 0; Pct := 50 |} ]) world0)
  = sent (postRequest (NewClient "") "/market/m/resolve" "outcome=CANCEL;") world0.
Proof.
  apply (proj2 (proj2 (ResolveFreeResponse_CANCEL plain (NewClient "") "m"
                         (Some [ {| Answer := 0; Pct := 50 |} ]) world0)));
    reflexivity.
Defined.
